(** * Time-entry lifecycle of the attendance application

    A shallow embedding of [myapp/models.py] ([CustomUser.authenticate_by_pin],
    [TimeEntry.clock_out], [TimeEntry.clock_in]) and of the three credential
    checking views of [myapp/views.py], together with the properties of the
    clock service that the specification states.

    Conventions.
    - Instants are integers: microseconds since the epoch, in UTC.  This is
      the resolution of Python's [datetime] and of the database column.
    - [hours_worked] is a Python float.  It is modelled by the binary64
      instance of [SpecFloat], the executable IEEE-754 specification.
    - The database and the server clock are threaded through a state monad
      in which a raised exception keeps the writes made before it (the
      models run in autocommit mode, there is no transaction block). *)

From Stdlib Require Import ZArith List String Bool Lia.
From Stdlib Require Import Floats.SpecFloat.
Import ListNotations.
Local Open Scope Z_scope.

(* ===================================================================== *)
(** ** Python floats                                                      *)
(* ===================================================================== *)

Module PyFloat.

Definition prec : Z := 53.
Definition emax : Z := 1024.

Definition float : Type := spec_float.

Definition fzero : float := S754_zero false.

(** [float(n)] for an integer [n]: the nearest binary64, ties to even. *)
Definition of_int (n : Z) : float := binary_normalize prec emax n 0 false.

(** [a / b] for two Python integers with [b > 0] (true division).  CPython
    rounds the exact quotient once; [SFdiv] divides the two integer
    mantissas and rounds the quotient once, to nearest, ties to even. *)
Definition int_truediv (a : Z) (b : positive) : float :=
  match a with
  | Z0 => S754_zero false
  | Zpos p => SFdiv prec emax (S754_finite false p 0) (S754_finite false b 0)
  | Zneg p => SFdiv prec emax (S754_finite true p 0) (S754_finite false b 0)
  end.

(** [x / y] for two floats. *)
Definition truediv (x y : float) : float := SFdiv prec emax x y.

(** The integer nearest to [m * 2^e], ties to even, for [0 <= m]. *)
Definition rne_scaled (m e : Z) : Z :=
  match e with
  | Zneg p =>
      let d := Z.pow_pos 2 p in
      let q := m / d in
      let r := m mod d in
      match 2 * r ?= d with
      | Lt => q
      | Gt => q + 1
      | Eq => if Z.even q then q else q + 1
      end
  | _ => m * 2 ^ e
  end.

(** [round(x, 2)].  CPython prints the exact value of [x] with two digits
    after the point, correctly rounded (ties to even), keeps the sign, and
    reads the decimal string back; infinities and nan round to
    themselves. *)
Definition round2 (x : float) : float :=
  match x with
  | S754_finite s m e =>
      match rne_scaled (Zpos m * 100) e with
      | Zpos n => SFdiv prec emax (S754_finite s n 0) (S754_finite false 100 0)
      | _ => S754_zero s
      end
  | _ => x
  end.

(** [0 <= x] as Python evaluates it: false on nan, true on [-0.0]. *)
Definition nonneg (x : float) : bool := SFleb fzero x.

(** The sign bit is [s] and the value is not nan. *)
Definition has_sign (s : bool) (x : float) : Prop :=
  match x with
  | S754_zero s' | S754_infinity s' | S754_finite s' _ _ => s' = s
  | S754_nan => False
  end.

End PyFloat.

(* ===================================================================== *)
(** ** Exceptions and results                                             *)
(* ===================================================================== *)

(** The exceptions that the modelled code can raise. *)
Inductive exn : Type :=
  | User_DoesNotExist        (* CustomUser.DoesNotExist *)
  | TimeEntry_DoesNotExist   (* TimeEntry.DoesNotExist *)
  | TypeError
  | ValueError.

Inductive result (A : Type) : Type :=
  | Ok (a : A)
  | Raise (e : exn).
Arguments Ok {A} a.
Arguments Raise {A} e.

Definition exn_eqb (a b : exn) : bool :=
  match a, b with
  | User_DoesNotExist, User_DoesNotExist
  | TimeEntry_DoesNotExist, TimeEntry_DoesNotExist
  | TypeError, TypeError
  | ValueError, ValueError => true
  | _, _ => false
  end.

(* ===================================================================== *)
(** ** Python's [datetime]                                                *)
(* ===================================================================== *)

Module Datetime.

Definition US_PER_SECOND : Z := 1000000.
Definition US_PER_MINUTE : Z := 60 * US_PER_SECOND.
Definition US_PER_HOUR : Z := 60 * US_PER_MINUTE.
Definition US_PER_DAY : Z := 24 * US_PER_HOUR.

(** A [datetime] is naive (wall-clock fields only) or aware (an instant
    together with the UTC offset of its [tzinfo]).  Wall-clock readings,
    like instants, are counted in microseconds. *)
Inductive datetime : Type :=
  | Naive (wall : Z)
  | Aware (instant : Z) (utcoffset : Z).

Definition wall_clock (d : datetime) : Z :=
  match d with
  | Naive w => w
  | Aware t off => t + off
  end.

(** [d.date()], as a day number. *)
Definition date (d : datetime) : Z := wall_clock d / US_PER_DAY.

(** [d.time()]: the naive time of day, in microseconds after midnight. *)
Definition time (d : datetime) : Z := wall_clock d mod US_PER_DAY.

(** [datetime.time(h, m)] *)
Definition mk_time (h m : Z) : Z := h * US_PER_HOUR + m * US_PER_MINUTE.

(** [datetime.timedelta(minutes=m)] *)
Definition minutes (m : Z) : Z := m * US_PER_MINUTE.

(** [datetime.datetime.combine(day, t)] for a naive time [t] is naive. *)
Definition combine (day t : Z) : datetime := Naive (day * US_PER_DAY + t).

(** [d + delta] *)
Definition add (d : datetime) (delta : Z) : datetime :=
  match d with
  | Naive w => Naive (w + delta)
  | Aware t off => Aware (t + delta) off
  end.

(** [a - b]: a [timedelta], in microseconds.  Mixing a naive and an aware
    operand raises [TypeError]. *)
Definition sub (a b : datetime) : result Z :=
  match a, b with
  | Naive x, Naive y => Ok (x - y)
  | Aware x _, Aware y _ => Ok (x - y)
  | _, _ => Raise TypeError
  end.

(** [a > b], with the same rule on mixed operands. *)
Definition gt (a b : datetime) : result bool :=
  match a, b with
  | Naive x, Naive y => Ok (y <? x)
  | Aware x _, Aware y _ => Ok (y <? x)
  | _, _ => Raise TypeError
  end.

(** [delta.total_seconds()]: the microsecond count divided by [10**6]. *)
Definition total_seconds (delta : Z) : PyFloat.float :=
  PyFloat.int_truediv delta 1000000.

End Datetime.

(* ===================================================================== *)
(** ** Project settings                                                   *)
(* ===================================================================== *)

(** The settings module is not part of the modelled sources; what the code
    reads from it is a parameter.  [USE_TZ] is taken to be [True] (the
    models call [timezone.localtime] on stored values, which accepts aware
    datetimes only): [timezone.now()] and every value loaded from a
    [DateTimeField] are aware datetimes in UTC. *)
Record Settings : Type := {
  (** The current time zone: the UTC offset, in microseconds, that it
      assigns to an instant. *)
  TIME_ZONE : Z -> Z;
  (** The password hasher: [verify raw encoded]. *)
  PASSWORD_HASHER : string -> string -> bool
}.

(* ===================================================================== *)
(** ** The two tables                                                     *)
(* ===================================================================== *)

(** [CustomUser], with the columns that the modelled code reads. *)
Record CustomUser : Type := {
  user_pk : Z;
  employee_id : string;
  first_name : option string;
  surname : option string;
  company : option string;
  pin : option string;          (* null=True *)
  password : string;            (* the encoded password of AbstractUser *)
  is_staff : bool;
  is_superuser : bool
}.

(** [TimeEntry].  [time_in] is never null ([auto_now_add]). *)
Record TimeEntry : Type := {
  pk : Z;
  user_id : Z;                           (* ForeignKey to the user *)
  time_in : Z;
  time_out : option Z;
  hours_worked : option PyFloat.float;
  is_late : bool
}.

Definition set_time_out (e : TimeEntry) (t : option Z) : TimeEntry :=
  {| pk := pk e; user_id := user_id e; time_in := time_in e;
     time_out := t; hours_worked := hours_worked e; is_late := is_late e |}.

Definition set_hours_worked (e : TimeEntry) (h : option PyFloat.float) : TimeEntry :=
  {| pk := pk e; user_id := user_id e; time_in := time_in e;
     time_out := time_out e; hours_worked := h; is_late := is_late e |}.

Definition set_is_late (e : TimeEntry) (b : bool) : TimeEntry :=
  {| pk := pk e; user_id := user_id e; time_in := time_in e;
     time_out := time_out e; hours_worked := hours_worked e; is_late := b |}.

(* ===================================================================== *)
(** ** The world: database, server clock, session                         *)
(* ===================================================================== *)

Record World : Type := {
  users : list CustomUser;      (* rows of CustomUser, employee_id unique *)
  entries : list TimeEntry;     (* rows of TimeEntry, in insertion order *)
  clock : nat -> Z;             (* the instant returned by the k-th reading *)
  reads : nat;                  (* number of readings taken so far *)
  session : option Z            (* the user logged into the session *)
}.

Definition with_entries (w : World) (l : list TimeEntry) : World :=
  {| users := users w; entries := l; clock := clock w; reads := reads w;
     session := session w |}.

Definition with_reads (w : World) (n : nat) : World :=
  {| users := users w; entries := entries w; clock := clock w; reads := n;
     session := session w |}.

Definition with_session (w : World) (s : option Z) : World :=
  {| users := users w; entries := entries w; clock := clock w; reads := reads w;
     session := s |}.

(** Computations on the world.  A raised exception keeps the world that was
    reached when it was raised. *)
Definition M (A : Type) : Type := World -> result A * World.

Definition ret {A} (a : A) : M A := fun w => (Ok a, w).

Definition raise {A} (e : exn) : M A := fun w => (Raise e, w).

Definition bind {A B} (c : M A) (k : A -> M B) : M B :=
  fun w =>
    match c w with
    | (Ok a, w') => k a w'
    | (Raise e, w') => (Raise e, w')
    end.

Definition lift {A} (r : result A) : M A := fun w => (r, w).

Declare Scope py_scope.
Delimit Scope py_scope with py.
Notation "x <- c ;; k" := (bind c (fun x => k))
  (at level 61, c at next level, right associativity) : py_scope.
Notation "c ;;; k" := (bind c (fun _ => k))
  (at level 61, right associativity) : py_scope.
Local Open Scope py_scope.

(** [try: x = body / except exc: return handler] followed by [rest x]. *)
Definition try_except {A B} (body : M A) (exc : exn) (handler : M B)
    (rest : A -> M B) : M B :=
  fun w =>
    match body w with
    | (Ok a, w') => rest a w'
    | (Raise e, w') => if exn_eqb e exc then handler w' else (Raise e, w')
    end.

(** [for x in l: body(x)] *)
Fixpoint for_each {A B} (l : list A) (body : A -> M B) : M unit :=
  match l with
  | [] => ret tt
  | x :: l' => body x ;;; for_each l' body
  end.

(** [timezone.now()]: one reading of the server clock.  The value is the
    aware datetime [Aware t 0]; its instant [t] is returned. *)
Definition timezone_now : M Z :=
  fun w => (Ok (clock w (reads w)), with_reads w (S (reads w))).

(** A stored instant as Python sees it: an aware datetime in UTC. *)
Definition aware (t : Z) : Datetime.datetime := Datetime.Aware t 0.

Definition option_string_eqb (a b : option string) : bool :=
  match a, b with
  | None, None => true
  | Some x, Some y => String.eqb x y
  | _, _ => false
  end.

Definition isnull {A} (o : option A) : bool :=
  match o with None => true | Some _ => false end.

(** *** Managers *)

(** [CustomUser.objects.get(employee_id=v)].  A missing value ([None]) is
    looked up as [IS NULL] and matches no row. *)
Definition find_user (v : option string) (l : list CustomUser) : option CustomUser :=
  match v with
  | None => None
  | Some s => find (fun u => String.eqb (employee_id u) s) l
  end.

Definition CustomUser_get (v : option string) : M CustomUser :=
  fun w =>
    match find_user v (users w) with
    | Some u => (Ok u, w)
    | None => (Raise User_DoesNotExist, w)
    end.

(** [TimeEntry.objects.filter(...)], evaluated. *)
Definition TimeEntry_filter (p : TimeEntry -> bool) : M (list TimeEntry) :=
  fun w => (Ok (filter p (entries w)), w).

(** [queryset.exists()] *)
Definition TimeEntry_exists (p : TimeEntry -> bool) : M bool :=
  fun w => (Ok (existsb p (entries w)), w).

(** The row with the greatest [time_in], the first such row on a tie. *)
Fixpoint latest_by_time_in (l : list TimeEntry) : option TimeEntry :=
  match l with
  | [] => None
  | e :: l' =>
      match latest_by_time_in l' with
      | Some e' => if time_in e <? time_in e' then Some e' else Some e
      | None => Some e
      end
  end.

(** [queryset.latest('time_in')] *)
Definition TimeEntry_latest (p : TimeEntry -> bool) : M TimeEntry :=
  fun w =>
    match latest_by_time_in (filter p (entries w)) with
    | Some e => (Ok e, w)
    | None => (Raise TimeEntry_DoesNotExist, w)
    end.

(** The key of the next inserted row. *)
Definition next_pk (l : list TimeEntry) : Z :=
  1 + fold_right Z.max 0 (map pk l).

(** [TimeEntry.objects.create(user=user)]: [time_in] is one reading of the
    clock ([auto_now_add]), the other columns take their defaults. *)
Definition TimeEntry_create (user : CustomUser) : M TimeEntry :=
  t <- timezone_now ;;
  fun w =>
    let e := {| pk := next_pk (entries w); user_id := user_pk user;
                time_in := t; time_out := None; hours_worked := None;
                is_late := false |} in
    (Ok e, with_entries w (entries w ++ [e])).

(** [self.save()] for an instance that was loaded from or created in the
    table: the row with its key is overwritten. *)
Definition save (self : TimeEntry) : M unit :=
  fun w =>
    (Ok tt,
     with_entries w
       (map (fun r => if pk r =? pk self then self else r) (entries w))).

(** [login(request, user)]: the session becomes the user's.  On the way
    Django reads the server clock twice, for the expiry date of the session
    row that it creates and for [last_login]; the [last_login] column
    itself is outside the model. *)
Definition login (user : CustomUser) : M unit :=
  fun w =>
    (Ok tt,
     with_session (with_reads w (S (S (reads w)))) (Some (user_pk user))).

(** The lookups of the querysets. *)
Definition is_open_for (user : CustomUser) (e : TimeEntry) : bool :=
  (user_id e =? user_pk user) && isnull (time_out e).

(** *** Responses *)

Inductive Response : Type :=
  (** [JsonResponse({'success': False, 'error': msg})] *)
  | JsonFailure (error : string)
  (** [JsonResponse({'success': True, ...})]; the two times are the local
      datetimes that the view formats. *)
  | JsonSuccess (employee_id : string) (first_name surname company : option string)
                (time_in : Datetime.datetime) (time_out : option Datetime.datetime)
  (** [render(request, template, {'error': msg})] *)
  | Render (template : string) (error : option string)
  (** [redirect(target)] *)
  | Redirect (target : string)
  (** the answer of [require_POST] to another method *)
  | NotAllowed.

(** The fields that the views read from a request. *)
Record Request : Type := {
  is_post : bool;                        (* request.method == 'POST' *)
  req_employee_id : option string;       (* .get('employee_id') *)
  req_pin : option string                (* .get('pin') *)
}.

(** The lateness rule at creation in the words of the specification: late
    when the local clock-in time is strictly after 08:00 of its day plus a
    grace period of five minutes.  [wall] is the local wall-clock reading. *)
Definition spec_late_at_creation (wall : Z) : bool :=
  (wall / Datetime.US_PER_DAY) * Datetime.US_PER_DAY
    + 8 * Datetime.US_PER_HOUR + 5 * Datetime.US_PER_MINUTE <? wall.

(** Hours worked in the words of the specification:
    [round((time_out - time_in) seconds / 3600, 2)]. *)
Definition spec_hours (t_in t_out : Z) : PyFloat.float :=
  PyFloat.round2
    (PyFloat.truediv (PyFloat.int_truediv (t_out - t_in) 1000000)
                     (PyFloat.of_int 3600)).

(* ===================================================================== *)
(** ** models.py and views.py                                             *)
(* ===================================================================== *)

Section Application.

Variable cfg : Settings.

(** [timezone.localtime(value)]: the same instant in the current time
    zone; a naive value is refused. *)
Definition localtime (value : Datetime.datetime) : M Datetime.datetime :=
  match value with
  | Datetime.Naive _ => raise ValueError
  | Datetime.Aware t _ => ret (Datetime.Aware t (TIME_ZONE cfg t))
  end.

(** [user.check_password(raw)]: [None] never verifies. *)
Definition check_password (user : CustomUser) (raw : option string) : bool :=
  match raw with
  | None => false
  | Some r => PASSWORD_HASHER cfg r (password user)
  end.

(** [CustomUser.authenticate_by_pin(employee_id, pin)].  The result is the
    user or Python's [None]; a staff user whose password does not verify
    falls off the end of the function, which also returns [None]. *)
Definition authenticate_by_pin (employee_id' pin' : option string)
    : M (option CustomUser) :=
  try_except (CustomUser_get employee_id') User_DoesNotExist
    (ret None)
    (fun user =>
       if is_staff user || is_superuser user then
         if check_password user pin' then ret (Some user) else ret None
       else if option_string_eqb (pin user) pin' then ret (Some user)
       else ret None).

(** [TimeEntry.clock_out(self)].  The guards [if self.time_in and
    self.time_out] and [if self.time_in] are taken: [time_in] is never
    null, [time_out] was just assigned, and a datetime is truthy.  The
    mutated instance is returned. *)
Definition clock_out (self : TimeEntry) : M TimeEntry :=
  now <- timezone_now ;;
  let self := set_time_out self (Some now) in
  delta <- lift (Datetime.sub (aware now) (aware (time_in self))) ;;
  let self :=
    set_hours_worked self
      (Some (PyFloat.round2
               (PyFloat.truediv (Datetime.total_seconds delta)
                                (PyFloat.of_int 3600)))) in
  time_in_local <- localtime (aware (time_in self)) ;;
  let expected_start := Datetime.mk_time 9 0 in
  let self :=
    set_is_late self (expected_start <? Datetime.time time_in_local) in
  save self ;;;
  ret self.

(** The lookup [time_in__date=day] of a queryset: [time_in] is converted
    to the current time zone before its date is taken. *)
Definition time_in__date (e : TimeEntry) : Z :=
  Datetime.date (Datetime.Aware (time_in e) (TIME_ZONE cfg (time_in e))).

(** [TimeEntry.clock_in(cls, user)] *)
Definition clock_in (user : CustomUser) : M TimeEntry :=
  open_entries <- TimeEntry_filter (is_open_for user) ;;
  for_each open_entries clock_out ;;;
  new_entry <- TimeEntry_create user ;;
  now <- timezone_now ;;
  let today := Datetime.date (aware now) in
  seen <- TimeEntry_exists
            (fun e => (user_id e =? user_pk user) && (time_in__date e =? today)) ;;
  if negb seen then
    time_in_local <- localtime (aware (time_in new_entry)) ;;
    let expected_start := Datetime.mk_time 8 0 in
    let grace_period := Datetime.minutes 5 in
    let expected_start_with_grace :=
      Datetime.add (Datetime.combine (Datetime.date time_in_local) expected_start)
                   grace_period in
    late <- lift (Datetime.gt time_in_local expected_start_with_grace) ;;
    let new_entry := set_is_late new_entry (if late then true else false) in
    save new_entry ;;;
    ret new_entry
  else ret new_entry.

(** [login_view(request)] *)
Definition login_view (request : Request) : M Response :=
  if is_post request then
    let employee_id' := req_employee_id request in
    let pin' := req_pin request in
    try_except (CustomUser_get employee_id') User_DoesNotExist
      (ret (Render "index.html"%string (Some "Employee ID not found"%string)))
      (fun user =>
         if negb (option_string_eqb (pin user) pin') then
           ret (Render "index.html"%string (Some "Incorrect PIN"%string))
         else
           login user ;;;
           if is_staff user || is_superuser user then
             ret (Redirect "admin:index"%string)
           else ret (Redirect "user_page"%string))
  else ret (Render "index.html"%string None).

(** [clock_in_view(request)]; [request] holds the parsed JSON body. *)
Definition clock_in_view (request : Request) : M Response :=
  if negb (is_post request) then ret NotAllowed else
  let employee_id' := req_employee_id request in
  let pin' := req_pin request in
  try_except (CustomUser_get employee_id') User_DoesNotExist
    (ret (JsonFailure "Employee ID not found"%string))
    (fun user =>
       if negb (option_string_eqb (pin user) pin') then
         ret (JsonFailure "Incorrect PIN"%string)
       else
         entry <- clock_in user ;;
         time_in_local <- localtime (aware (time_in entry)) ;;
         ret (JsonSuccess (employee_id user) (first_name user)
                          (surname user) (company user) time_in_local None)).

(** [clock_out_view(request)] *)
Definition clock_out_view (request : Request) : M Response :=
  if negb (is_post request) then ret NotAllowed else
  let employee_id' := req_employee_id request in
  let pin' := req_pin request in
  try_except (CustomUser_get employee_id') User_DoesNotExist
    (ret (JsonFailure "Employee ID not found"%string))
    (fun user =>
       if negb (option_string_eqb (pin user) pin') then
         ret (JsonFailure "Incorrect PIN"%string)
       else
         try_except
           (open_entry <- TimeEntry_latest (is_open_for user) ;;
            clock_out open_entry)
           TimeEntry_DoesNotExist
           (ret (JsonFailure "No active clock in found."%string))
           (fun open_entry =>
              time_in_local <- localtime (aware (time_in open_entry)) ;;
              match time_out open_entry with
              | Some t =>
                  time_out_local <- localtime (aware t) ;;
                  ret (JsonSuccess (employee_id user) (first_name user)
                                   (surname user) (company user)
                                   time_in_local (Some time_out_local))
              | None => raise TypeError   (* localtime(None) *)
              end)).

(** The ledgers that the operations build, starting from an empty one.
    Between two operations anything but the ledger may change (the clock
    advances, users are edited, sessions come and go). *)
Inductive reachable : World -> Prop :=
  | reach_empty w : entries w = [] -> reachable w
  | reach_env w w' : reachable w -> entries w' = entries w -> reachable w'
  | reach_clock_in w user :
      reachable w -> reachable (snd (clock_in user w))
  | reach_clock_out w e :
      reachable w -> In e (entries w) -> reachable (snd (clock_out e w))
  | reach_login_view w request :
      reachable w -> reachable (snd (login_view request w))
  | reach_clock_in_view w request :
      reachable w -> reachable (snd (clock_in_view request w))
  | reach_clock_out_view w request :
      reachable w -> reachable (snd (clock_out_view request w)).

(** A closed entry is fully populated. *)
Definition populated (e : TimeEntry) : Prop :=
  match time_out e with
  | None => True
  | Some t =>
      exists h, hours_worked e = Some h /\
                (time_in e <= t -> PyFloat.nonneg h = true)
  end.

Definition all_populated (l : list TimeEntry) : Prop :=
  forall e, In e l -> populated e.

(** The instant [t] in the current time zone. *)
Definition local (t : Z) : Datetime.datetime :=
  Datetime.Aware t (TIME_ZONE cfg t).

(** The world after [for entry in l: entry.clock_out()]. *)
Fixpoint auto_close (l : list TimeEntry) (w : World) : World :=
  match l with
  | [] => w
  | e :: l' => auto_close l' (snd (clock_out e w))
  end.

(** The row that [TimeEntry.objects.create(user=user)] inserts in [w]. *)
Definition created (user : CustomUser) (w : World) : TimeEntry :=
  {| pk := next_pk (entries w); user_id := user_pk user;
     time_in := clock w (reads w); time_out := None; hours_worked := None;
     is_late := false |}.

(** The instance that [clock_out] leaves when the clock reads [now]. *)
Definition closed_at (now : Z) (e : TimeEntry) : TimeEntry :=
  {| pk := pk e; user_id := user_id e; time_in := time_in e;
     time_out := Some now;
     hours_worked := Some (spec_hours (time_in e) now);
     is_late :=
       Datetime.mk_time 9 0
         <? Datetime.time (local (time_in e)) |}.

End Application.

(* ===================================================================== *)
(** ** Sample data                                                        *)
(* ===================================================================== *)

Module Sample.

(** A deployment in UTC whose hasher prefixes the raw password. *)
Definition utc : Settings :=
  {| TIME_ZONE := fun _ => 0;
     PASSWORD_HASHER := fun raw encoded => String.eqb ("plain$" ++ raw) encoded |}.

(** The same deployment eight hours east of UTC. *)
Definition utc_plus_8 : Settings :=
  {| TIME_ZONE := fun _ => 8 * Datetime.US_PER_HOUR;
     PASSWORD_HASHER := PASSWORD_HASHER utc |}.

(** A regular employee, identified by a PIN. *)
Definition alice : CustomUser :=
  {| user_pk := 1; employee_id := "000001"; first_name := Some "Alice"%string;
     surname := Some "Reyes"%string; company := Some "Acme"%string;
     pin := Some "1234"%string; password := "!"; is_staff := false;
     is_superuser := false |}.

(** A member of staff, identified by a password. *)
Definition boss : CustomUser :=
  {| user_pk := 2; employee_id := "000002"; first_name := Some "Bo"%string;
     surname := Some "Cruz"%string; company := Some "Acme"%string;
     pin := Some "0000"%string; password := "plain$s3cret"; is_staff := true;
     is_superuser := false |}.

(** The instant [h:m:00] of day [day], in UTC. *)
Definition at_ (day h m : Z) : Z :=
  day * Datetime.US_PER_DAY + Datetime.mk_time h m.

(** An empty ledger; every reading of the clock is [now]. *)
Definition fresh (now : Z) : World :=
  {| users := [alice; boss]; entries := []; clock := fun _ => now;
     reads := 0; session := None |}.

(** An empty ledger; the first reading is the last microsecond of day
    [day], every later one is the first microsecond of the next day. *)
Definition at_midnight (day : Z) : World :=
  {| users := [alice; boss]; entries := [];
     clock := fun k => match k with
                       | O => (day + 1) * Datetime.US_PER_DAY - 1
                       | S _ => (day + 1) * Datetime.US_PER_DAY
                       end;
     reads := 0; session := None |}.

(** Alice clocked in at 08:30 of day 20000 and out at 17:00. *)
Definition closed_entry : TimeEntry :=
  {| pk := 1; user_id := 1; time_in := at_ 20000 8 30;
     time_out := Some (at_ 20000 17 0);
     hours_worked := Some (spec_hours (at_ 20000 8 30) (at_ 20000 17 0));
     is_late := false |}.

(** Alice clocked in at 08:30 of day 20000 and has not clocked out. *)
Definition open_entry : TimeEntry :=
  {| pk := 1; user_id := 1; time_in := at_ 20000 8 30;
     time_out := None; hours_worked := None; is_late := false |}.

(** A ledger holding [e]; every reading of the clock is [now]. *)
Definition holding (e : TimeEntry) (now : Z) : World :=
  {| users := [alice; boss]; entries := [e]; clock := fun _ => now;
     reads := 0; session := None |}.

Definition post (employee pin_ : string) : Request :=
  {| is_post := true; req_employee_id := Some employee; req_pin := Some pin_ |}.

End Sample.

(* ===================================================================== *)
(** ** The rest of models.py, views.py and urls.py                        *)
(* ===================================================================== *)

(** [TimeEntry.date]: the date part of [time_in], an aware datetime in UTC. *)
Definition TimeEntry_date (self : TimeEntry) : Z :=
  Datetime.date (aware (time_in self)).

(** [logout(request)] *)
Definition logout : M unit :=
  fun w => (Ok tt, with_session w None).

(** [logout_view(request)]: any method. *)
Definition logout_view (request : Request) : M Response :=
  logout ;;; ret (Redirect "login").

(** [user_page(request)] *)
Definition user_page (request : Request) : M Response :=
  ret (Render "user_page.html" None).

(** No open entry of any user exceeds one. *)
Definition one_open_each (l : list TimeEntry) : Prop :=
  forall user, (List.length (filter (is_open_for user) l) <= 1)%nat.

(** [x <= 0] as Python evaluates it. *)
Definition float_nonpos (x : PyFloat.float) : bool :=
  SFleb x PyFloat.fzero.

(** *** The user manager *)

(** The keyword arguments of [create_user] that reach a modelled column; an
    absent argument is [None]. *)
Record ExtraFields : Type := {
  xf_first_name : option string;
  xf_surname : option string;
  xf_company : option string;
  xf_pin : option string;
  xf_is_staff : option bool;
  xf_is_superuser : option bool
}.

(** What [create_user] and [create_superuser] raise. *)
Inductive ManagerError : Type :=
  | ManagerValueError (message : string)
  | IntegrityError.          (* the unique constraint on employee_id *)

Definition with_users (w : World) (l : list CustomUser) : World :=
  {| users := l; entries := entries w; clock := clock w; reads := reads w;
     session := session w |}.

(** The key of the next inserted user. *)
Definition next_user_pk (l : list CustomUser) : Z :=
  1 + fold_right Z.max 0 (map user_pk l).

(** [extra_fields.setdefault(key, True)] on a flag. *)
Definition setdefault_true (flag : option bool) : option bool :=
  match flag with
  | None => Some true
  | Some b => Some b
  end.

(** The value of a [BooleanField(default=False)] given the argument. *)
Definition flag_or_false (flag : option bool) : bool :=
  match flag with
  | Some b => b
  | None => false
  end.

Section Manager.

(** [make_password]: the encoded form that [set_password] stores, the
    unusable password for [None]. *)
Variable make_password : option string -> string.

(** [CustomUserManager.create_user(employee_id, password, **extra_fields)].
    [not employee_id] holds for [None] and for the empty string.  The row is
    inserted unless the identifier is taken.  The length limits of the
    columns are left to the database and are not modelled. *)
Definition create_user (employee_id' password' : option string)
    (extra_fields : ExtraFields) (w : World)
    : (ManagerError + CustomUser) * World :=
  match employee_id' with
  | None | Some EmptyString =>
      (inl (ManagerValueError "The Employee ID must be set"), w)
  | Some eid =>
      let user :=
        {| user_pk := next_user_pk (users w);
           employee_id := eid;
           first_name := xf_first_name extra_fields;
           surname := xf_surname extra_fields;
           company := xf_company extra_fields;
           pin := xf_pin extra_fields;
           password := make_password password';
           is_staff := flag_or_false (xf_is_staff extra_fields);
           is_superuser := flag_or_false (xf_is_superuser extra_fields) |} in
      if existsb (fun u => String.eqb (employee_id u) eid) (users w)
      then (inl IntegrityError, w)
      else (inr user, with_users w (users w ++ [user]))
  end.

(** [CustomUserManager.create_superuser(employee_id, password,
    **extra_fields)] *)
Definition create_superuser (employee_id' password' : option string)
    (extra_fields : ExtraFields) (w : World)
    : (ManagerError + CustomUser) * World :=
  let extra_fields :=
    {| xf_first_name := xf_first_name extra_fields;
       xf_surname := xf_surname extra_fields;
       xf_company := xf_company extra_fields;
       xf_pin := xf_pin extra_fields;
       xf_is_staff := setdefault_true (xf_is_staff extra_fields);
       xf_is_superuser := setdefault_true (xf_is_superuser extra_fields) |} in
  match xf_is_staff extra_fields with
  | Some true =>
      match xf_is_superuser extra_fields with
      | Some true => create_user employee_id' password' extra_fields w
      | _ => (inl (ManagerValueError "Superuser must have is_superuser=True."), w)
      end
  | _ => (inl (ManagerValueError "Superuser must have is_staff=True."), w)
  end.

End Manager.

(** *** urls.py *)

Inductive View : Type :=
  | LoginView
  | UserPage
  | LogoutView
  | ClockInView
  | ClockOutView.

(** [urlpatterns]: route, view, name. *)
Definition urlpatterns : list (string * View * string) :=
  [ (""%string, LoginView, "index"%string);
    ("login/"%string, LoginView, "login"%string) ].

(** The view of the first pattern whose route is the whole path. *)
Definition resolve (path : string) : option View :=
  match find (fun p => String.eqb (fst (fst p)) path) urlpatterns with
  | Some p => Some (snd (fst p))
  | None => None
  end.

(** [reverse(name)]: the route of the pattern of that name. *)
Definition reverse (name : string) : option string :=
  match find (fun p => String.eqb (snd p) name) urlpatterns with
  | Some p => Some (fst (fst p))
  | None => None
  end.

Section Dispatch.

Variable cfg : Settings.

Definition view_function (v : View) : Request -> M Response :=
  match v with
  | LoginView => login_view
  | UserPage => user_page
  | LogoutView => logout_view
  | ClockInView => clock_in_view cfg
  | ClockOutView => clock_out_view cfg
  end.

(** A request served through [urlpatterns]; [None] when no route matches. *)
Definition serve (path : string) (request : Request) (w : World)
    : option (result Response * World) :=
  match resolve path with
  | Some v => Some (view_function v request w)
  | None => None
  end.

End Dispatch.

Module Fixture.

(** The encoder that goes with the hasher of [Sample.utc]. *)
Definition encode (raw : option string) : string :=
  match raw with
  | Some r => "plain$" ++ r
  | None => "!"
  end.

(** No keyword argument. *)
Definition no_extra : ExtraFields :=
  {| xf_first_name := None; xf_surname := None; xf_company := None;
     xf_pin := None; xf_is_staff := None; xf_is_superuser := None |}.

(** A POST that carries the employee id and no pin field. *)
Definition post_without_pin (employee : string) : Request :=
  {| is_post := true; req_employee_id := Some employee; req_pin := None |}.

(** The user that [create_user] makes of "000003" and "pw" in
    [Sample.fresh]. *)
Definition carol : CustomUser :=
  {| user_pk := 3; employee_id := "000003"; first_name := None;
     surname := None; company := None; pin := None;
     password := "plain$pw"; is_staff := false; is_superuser := false |}.

(** The user that [create_superuser] makes of the same arguments. *)
Definition root : CustomUser :=
  {| user_pk := 3; employee_id := "000003"; first_name := None;
     surname := None; company := None; pin := None;
     password := "plain$pw"; is_staff := true; is_superuser := true |}.

(** An empty ledger; the first two readings of the clock are 08:06 of day
    20000, the later ones 17:00 of that day. *)
Definition working_day : World :=
  {| users := [Sample.alice; Sample.boss]; entries := [];
     clock := fun k => match k with
                       | O | S O => Sample.at_ 20000 8 6
                       | _ => Sample.at_ 20000 17 0
                       end;
     reads := 0; session := None |}.

(** Alice's open entry lies a day ahead of every reading of the clock. *)
Definition clock_set_back : World :=
  Sample.holding Sample.open_entry (Sample.at_ 19999 8 30).

End Fixture.

(* ===================================================================== *)
(** ** Signs of the float operations                                      *)
(* ===================================================================== *)

Section FloatSigns.

Import PyFloat.

Lemma iter_pos_invariant (P : shr_record -> Prop) (f : shr_record -> shr_record) :
  (forall x, P x -> P (f x)) ->
  forall p x, P x -> P (iter_pos f p x).
Proof.
  intros Hf p. induction p as [p IH | p IH | ]; intros x Hx; simpl.
  - apply IH, IH, Hf, Hx.
  - apply IH, IH, Hx.
  - apply Hf, Hx.
Qed.

Lemma shr_1_nonneg mrs : 0 <= shr_m mrs -> 0 <= shr_m (shr_1 mrs).
Proof.
  destruct mrs as [m r s]. simpl.
  destruct m as [ | [p | p | ] | [p | p | ] ]; simpl; lia.
Qed.

Lemma shr_nonneg mrs e n : 0 <= shr_m mrs -> 0 <= shr_m (fst (shr mrs e n)).
Proof.
  intros H. destruct n; simpl; trivial.
  apply (iter_pos_invariant (fun x => 0 <= shr_m x)); trivial.
  exact shr_1_nonneg.
Qed.

Lemma shr_fexp_nonneg m e l :
  0 <= m -> 0 <= shr_m (fst (shr_fexp prec emax m e l)).
Proof.
  intros H. unfold shr_fexp. apply shr_nonneg.
  destruct l as [ | [ | | ] ]; simpl; exact H.
Qed.

Lemma round_nearest_even_nonneg m l : 0 <= m -> 0 <= round_nearest_even m l.
Proof.
  intros H. destruct l as [ | [ | | ] ]; simpl; try lia.
  destruct (Z.even m); lia.
Qed.

Lemma binary_round_aux_sign sx mx ex lx :
  0 <= mx -> has_sign sx (binary_round_aux prec emax sx mx ex lx).
Proof.
  intros H. unfold binary_round_aux.
  pose proof (shr_fexp_nonneg mx ex lx H) as H1.
  destruct (shr_fexp prec emax mx ex lx) as [mrs' e'] eqn:E1. simpl in H1.
  pose proof (shr_fexp_nonneg
                (round_nearest_even (shr_m mrs') (loc_of_shr_record mrs'))
                e' loc_Exact (round_nearest_even_nonneg _ _ H1)) as H2.
  destruct (shr_fexp prec emax _ e' loc_Exact) as [mrs'' e''] eqn:E2.
  simpl in H2.
  destruct (shr_m mrs'') as [ | m | m ].
  - reflexivity.
  - destruct (e'' <=? emax - prec); reflexivity.
  - lia.
Qed.

Lemma SFdiv_finite_sign sx mx ex sy my ey :
  has_sign (xorb sx sy)
    (SFdiv prec emax (S754_finite sx mx ex) (S754_finite sy my ey)).
Proof.
  unfold SFdiv, SFdiv_core_binary.
  set (e' := Z.min _ _). set (s := ex - ey - e').
  set (m' := match s with Z0 => Zpos mx | Zpos _ => Z.shiftl (Zpos mx) s | Zneg _ => 0 end).
  assert (Hm : 0 <= m').
  { subst m'. destruct s; try lia. apply Z.shiftl_nonneg. lia. }
  pose proof (Z.div_eucl_eq m' (Zpos my) ltac:(lia)) as Hq.
  pose proof (Z.mod_pos_bound m' (Zpos my) ltac:(lia)) as Hr.
  unfold Z.modulo in Hr.
  destruct (Z.div_eucl m' (Zpos my)) as [q r].
  apply binary_round_aux_sign. nia.
Qed.

Lemma truediv_sign s x my ey :
  has_sign s x -> has_sign s (truediv x (S754_finite false my ey)).
Proof.
  unfold truediv. destruct x as [sx | sx | | sx mx ex]; simpl; intros H.
  - subst. apply xorb_false_r.
  - subst. apply xorb_false_r.
  - contradiction.
  - pose proof (SFdiv_finite_sign sx mx ex false my ey) as H'.
    rewrite xorb_false_r in H'. subst s. exact H'.
Qed.

Lemma int_truediv_sign a b : 0 <= a -> has_sign false (int_truediv a b).
Proof.
  intros H. destruct a as [ | p | p ]; simpl.
  - reflexivity.
  - apply (SFdiv_finite_sign false p 0 false b 0).
  - lia.
Qed.

Lemma round2_sign s x : has_sign s x -> has_sign s (round2 x).
Proof.
  destruct x as [sx | sx | | sx mx ex]; trivial.
  intros H. simpl in H. subst s. unfold round2.
  destruct (rne_scaled (Z.pos mx * 100) ex) as [ | n | n ];
    try reflexivity.
  pose proof (SFdiv_finite_sign sx n 0 false 100 0) as H'.
  rewrite xorb_false_r in H'. exact H'.
Qed.

Lemma has_sign_nonneg x : has_sign false x -> nonneg x = true.
Proof.
  destruct x as [sx | sx | | sx mx ex]; simpl; intros H;
    try contradiction; subst; reflexivity.
Qed.

Lemma of_int_3600 : exists m e, of_int 3600 = S754_finite false m e.
Proof. vm_compute. eauto. Qed.

(** Hours worked are not negative when the entry is closed at or after
    its clock-in. *)
Lemma spec_hours_nonneg t_in t_out :
  t_in <= t_out -> nonneg (spec_hours t_in t_out) = true.
Proof.
  intros H. apply has_sign_nonneg. unfold spec_hours.
  apply round2_sign.
  destruct of_int_3600 as (m & e & ->).
  apply truediv_sign, int_truediv_sign. lia.
Qed.

End FloatSigns.

(* ===================================================================== *)
(** ** What the operations compute                                        *)
(* ===================================================================== *)

Section Runs.

Variable cfg : Settings.

Lemma option_string_eqb_eq a b : option_string_eqb a b = true <-> a = b.
Proof.
  destruct a as [x | ], b as [y | ]; simpl; split; intros H;
    try discriminate; try reflexivity.
  - apply String.eqb_eq in H. congruence.
  - injection H as ->. apply String.eqb_refl.
Qed.

Lemma option_string_eqb_neq a b : option_string_eqb a b = false <-> a <> b.
Proof.
  split.
  - intros H E. apply option_string_eqb_eq in E. congruence.
  - intros H. destruct (option_string_eqb a b) eqn:E; trivial.
    apply option_string_eqb_eq in E. contradiction.
Qed.

(** One call of [clock_out]: one reading of the clock, one row written. *)
Lemma clock_out_run e w :
  clock_out cfg e w =
  (Ok (closed_at cfg (clock w (reads w)) e),
   with_entries (with_reads w (S (reads w)))
     (map (fun r => if pk r =? pk e
                    then closed_at cfg (clock w (reads w)) e else r)
          (entries w))).
Proof. reflexivity. Qed.

Lemma for_each_clock_out l w :
  for_each l (clock_out cfg) w = (Ok tt, auto_close cfg l w).
Proof.
  revert w. induction l as [ | e l IH]; intros w; simpl.
  - reflexivity.
  - unfold bind. rewrite clock_out_run. simpl. apply IH.
Qed.

Lemma auto_close_reads l w :
  reads (auto_close cfg l w) = (reads w + List.length l)%nat.
Proof.
  revert w. induction l as [ | e l IH]; intros w; simpl.
  - lia.
  - rewrite IH. simpl. lia.
Qed.

Lemma auto_close_clock l w : clock (auto_close cfg l w) = clock w.
Proof.
  revert w. induction l as [ | e l IH]; intros w; simpl; trivial.
  rewrite IH. reflexivity.
Qed.

Lemma auto_close_pks l w :
  map pk (entries (auto_close cfg l w)) = map pk (entries w).
Proof.
  revert w. induction l as [ | e l IH]; intros w; simpl; trivial.
  rewrite IH. simpl. rewrite map_map. apply map_ext.
  intros r. destruct (pk r =? pk e) eqn:E; trivial.
  simpl. symmetry. apply Z.eqb_eq, E.
Qed.

(** One call of [clock_in]. *)
Lemma clock_in_run user w :
  let w1 := auto_close cfg (filter (is_open_for user) (entries w)) w in
  let new := created user w1 in
  let today := Datetime.date (aware (clock w1 (S (reads w1)))) in
  clock_in cfg user w =
  (if existsb (fun e => (user_id e =? user_pk user)
                        && (time_in__date cfg e =? today))
              (entries w1 ++ [new])
   then Ok new else Raise TypeError,
   with_entries (with_reads w1 (S (S (reads w1)))) (entries w1 ++ [new])).
Proof.
  intros w1 new today. unfold clock_in.
  unfold bind at 1. unfold TimeEntry_filter.
  unfold bind at 1. rewrite for_each_clock_out. fold w1.
  unfold bind, TimeEntry_create, timezone_now, TimeEntry_exists; simpl.
  unfold new, created, today.
  match goal with
  | |- context [existsb ?p ?l] => destruct (existsb p l)
  end; reflexivity.
Qed.

End Runs.

(* ===================================================================== *)
(** ** Closing an entry                                                   *)
(* ===================================================================== *)

Section ClockOut.

Variable cfg : Settings.

Lemma in_saved (e e' : TimeEntry) (l : list TimeEntry) :
  In e l -> In e' (map (fun r => if pk r =? pk e then e' else r) l).
Proof.
  intros H. apply in_map_iff. exists e. split; trivial.
  rewrite Z.eqb_refl. reflexivity.
Qed.

(** C3. [clock_out] is not idempotent.  On an entry that is already
    closed the call is not rejected: it overwrites [time_out] with the
    new reading of the clock, recomputes [hours_worked] from that reading
    and recomputes [is_late], and writes the row; whenever the clock has
    moved, the record is no longer the one that was closed. *)
Theorem clock_out_overwrites_closed_entry (e : TimeEntry) (w : World) (t_old : Z) :
  time_out e = Some t_old ->
  let now := clock w (reads w) in
  exists e',
    fst (clock_out cfg e w) = Ok e' /\
    time_out e' = Some now /\
    hours_worked e' = Some (spec_hours (time_in e) now) /\
    is_late e' =
      (Datetime.mk_time 9 0 <? Datetime.time (local cfg (time_in e))) /\
    entries (snd (clock_out cfg e w)) =
      map (fun r => if pk r =? pk e then e' else r) (entries w) /\
    (now <> t_old -> e' <> e).
Proof.
  intros Hclosed now. exists (closed_at cfg now e).
  rewrite clock_out_run. simpl. repeat split.
  intros Hmoved Heq. apply Hmoved.
  rewrite <- Heq in Hclosed. simpl in Hclosed. congruence.
Qed.

(** C4. [clock_out] sets [is_late] exactly when the local time of day of
    [time_in] is strictly after 09:00; there is no grace period, and an
    entry opened at 09:00 sharp or at 08:30 local is not late. *)
Theorem clock_out_late_iff_after_nine (e : TimeEntry) (w : World) :
  exists e',
    fst (clock_out cfg e w) = Ok e' /\
    (In e (entries w) -> In e' (entries (snd (clock_out cfg e w)))) /\
    (is_late e' = true <->
     Datetime.mk_time 9 0 < Datetime.time (local cfg (time_in e))) /\
    (Datetime.time (local cfg (time_in e)) = Datetime.mk_time 9 0 ->
     is_late e' = false) /\
    (Datetime.time (local cfg (time_in e)) = Datetime.mk_time 8 30 ->
     is_late e' = false).
Proof.
  exists (closed_at cfg (clock w (reads w)) e).
  rewrite clock_out_run. simpl. repeat split.
  - apply in_saved.
  - apply Z.ltb_lt.
  - apply Z.ltb_lt.
  - intros ->. reflexivity.
  - intros ->. reflexivity.
Qed.

End ClockOut.

(* ===================================================================== *)
(** ** Credentials                                                        *)
(* ===================================================================== *)

Section Credentials.

Variable cfg : Settings.

Lemma filter_none {A} (p : A -> bool) (l : list A) :
  (forall x, In x l -> p x = false) -> filter p l = [].
Proof.
  induction l as [ | a l IH]; intros H; simpl; trivial.
  rewrite (H a (or_introl eq_refl)). apply IH.
  intros x Hx. apply H. right. exact Hx.
Qed.

(** C6. Clocking out with nothing open is answered, not raised: a user
    who passes the credential check and has no open entry receives the
    failure "No active clock in found." and the world, the ledger
    included, is left as it was. *)
Theorem clock_out_view_no_active_session
    (request : Request) (w : World) (user : CustomUser) :
  is_post request = true ->
  find_user (req_employee_id request) (users w) = Some user ->
  pin user = req_pin request ->
  (forall e, In e (entries w) -> user_id e = user_pk user -> time_out e <> None) ->
  clock_out_view cfg request w =
    (Ok (JsonFailure "No active clock in found."), w).
Proof.
  intros Hpost Hfound Hpin Hclosed.
  unfold clock_out_view. rewrite Hpost. cbn [negb].
  unfold try_except at 1. unfold CustomUser_get. rewrite Hfound.
  apply option_string_eqb_eq in Hpin. rewrite Hpin. cbn [negb].
  unfold try_except, bind, TimeEntry_latest.
  rewrite filter_none; [reflexivity | ].
  intros e He. unfold is_open_for.
  destruct (user_id e =? user_pk user) eqn:Eu; trivial. simpl.
  apply Z.eqb_eq in Eu. specialize (Hclosed e He Eu).
  destruct (time_out e); [reflexivity | contradiction].
Qed.

(** C7, as the code has it. [authenticate_by_pin] never raises and leaves
    the world alone.  It returns the user exactly when the identifier is
    known and the secret matches: against the encoded password for a
    staff user or superuser, literally against the PIN otherwise.  In
    every other case, an unknown identifier as much as a wrong secret,
    the result is [None]. *)
Theorem authenticate_by_pin_result
    (employee_id' secret : option string) (w : World) :
  exists r,
    authenticate_by_pin cfg employee_id' secret w = (Ok r, w) /\
    (forall user,
       r = Some user <->
       find_user employee_id' (users w) = Some user /\
       ((is_staff user || is_superuser user = true /\
         check_password cfg user secret = true) \/
        (is_staff user || is_superuser user = false /\
         pin user = secret))) /\
    (find_user employee_id' (users w) = None -> r = None) /\
    (forall user,
       find_user employee_id' (users w) = Some user ->
       (if is_staff user || is_superuser user
        then check_password cfg user secret
        else option_string_eqb (pin user) secret) = false ->
       r = None).
Proof.
  unfold authenticate_by_pin, try_except, CustomUser_get.
  destruct (find_user employee_id' (users w)) as [u | ] eqn:Hfound; simpl.
  - destruct (is_staff u || is_superuser u) eqn:Hstaff.
    + destruct (check_password cfg u secret) eqn:Hpw.
      * exists (Some u). split; [reflexivity | ]. split; [ | split].
        -- intros user. split.
           ++ intros [= <-]. split; trivial. left. split; trivial.
           ++ intros [[= <-] _]. reflexivity.
        -- discriminate.
        -- intros user [= <-]. rewrite Hstaff, Hpw. discriminate.
      * exists None. split; [reflexivity | ]. split; [ | split]; trivial.
        intros user. split; [discriminate | ].
        intros [[= <-] [[_ H] | [H _]]]; congruence.
    + destruct (option_string_eqb (pin u) secret) eqn:Hpin.
      * exists (Some u). split; [reflexivity | ]. split; [ | split].
        -- intros user. split.
           ++ intros [= <-]. split; trivial. right. split; trivial.
              apply option_string_eqb_eq, Hpin.
           ++ intros [[= <-] _]. reflexivity.
        -- discriminate.
        -- intros user [= <-]. rewrite Hstaff, Hpin. discriminate.
      * exists None. split; [reflexivity | ]. split; [ | split]; trivial.
        intros user. split; [discriminate | ].
        intros [[= <-] [[H _] | [_ H]]]; try congruence.
        apply option_string_eqb_eq in H. congruence.
  - exists None. split; [reflexivity | ]. split; [ | split]; trivial.
    intros user. split; [discriminate | ]. intros [H _]. discriminate.
Qed.

(** C9. The three views check the credential the same way: the submitted
    secret is compared literally with the [pin] column.  Neither
    [is_staff], [is_superuser], the encoded password nor the hasher takes
    part (the statement holds for every user and every hasher), so a
    staff user who submits the right password is answered "Incorrect PIN"
    unless the password equals the stored PIN. *)
Theorem views_compare_pin_literally
    (request : Request) (w : World) (user : CustomUser) :
  is_post request = true ->
  find_user (req_employee_id request) (users w) = Some user ->
  (pin user <> req_pin request ->
     login_view request w =
       (Ok (Render "index.html" (Some "Incorrect PIN"%string)), w) /\
     clock_in_view cfg request w = (Ok (JsonFailure "Incorrect PIN"), w) /\
     clock_out_view cfg request w = (Ok (JsonFailure "Incorrect PIN"), w)) /\
  (pin user = req_pin request ->
     fst (login_view request w) <>
       Ok (Render "index.html" (Some "Incorrect PIN"%string)) /\
     fst (clock_in_view cfg request w) <> Ok (JsonFailure "Incorrect PIN") /\
     fst (clock_out_view cfg request w) <> Ok (JsonFailure "Incorrect PIN")).
Proof.
  intros Hpost Hfound. split; intros Hpin.
  - apply option_string_eqb_neq in Hpin.
    unfold login_view, clock_in_view, clock_out_view.
    rewrite Hpost. cbn [negb].
    unfold try_except, CustomUser_get. rewrite Hfound, Hpin.
    repeat split.
  - apply option_string_eqb_eq in Hpin.
    unfold login_view, clock_in_view, clock_out_view.
    rewrite Hpost. cbn [negb].
    unfold try_except at 1 2 3. unfold CustomUser_get.
    rewrite Hfound, Hpin. cbn [negb].
    split; [ | split].
    + unfold bind, login.
      destruct (is_staff user || is_superuser user); simpl; discriminate.
    + unfold bind at 1. rewrite clock_in_run.
      match goal with
      | |- context [existsb ?p ?l] => destruct (existsb p l)
      end; simpl; discriminate.
    + unfold try_except, TimeEntry_latest. unfold bind at 1.
      destruct (latest_by_time_in (filter (is_open_for user) (entries w)))
        as [open_entry | ].
      * rewrite clock_out_run. simpl. discriminate.
      * simpl. discriminate.
Qed.

End Credentials.

(* ===================================================================== *)
(** ** Clocking in                                                        *)
(* ===================================================================== *)

Section ClockIn.

Variable cfg : Settings.

Lemma is_open_for_closed_at user t e :
  is_open_for user (closed_at cfg t e) = false.
Proof. unfold is_open_for. simpl. apply andb_false_r. Qed.

(** After the loop no row that the loop was to visit, and no row that was
    already out of its reach, satisfies the filter. *)
Lemma auto_close_none_open user l w :
  (forall r, In r (entries w) ->
     is_open_for user r = false \/ exists r0, In r0 l /\ pk r0 = pk r) ->
  forall r, In r (entries (auto_close cfg l w)) -> is_open_for user r = false.
Proof.
  revert w. induction l as [ | e l IH]; intros w H r Hr; simpl in Hr.
  - destruct (H r Hr) as [Hc | (r0 & [] & _)]. exact Hc.
  - apply (IH (snd (clock_out cfg e w))); trivial.
    intros r' Hr'. rewrite clock_out_run in Hr'. simpl in Hr'.
    apply in_map_iff in Hr' as (r1 & Hr1 & Hin).
    destruct (pk r1 =? pk e) eqn:E.
    + subst r'. left. apply is_open_for_closed_at.
    + subst r'. destruct (H r1 Hin) as [Hc | (r0 & [<- | Hr0] & Hpk)].
      * left. exact Hc.
      * apply Z.eqb_neq in E. congruence.
      * right. exists r0. split; trivial.
Qed.

(** C2. After [clock_in], at most one entry of the user is open.  The
    ledger it leaves is the one left by closing, through [clock_out],
    every entry of the user that was open, followed by the new row; the
    new row is created after those closings (its [time_in] is the reading
    of the clock that follows theirs) and is the only open entry of the
    user.  This holds whether or not the call returns normally. *)
Theorem clock_in_leaves_one_open (user : CustomUser) (w : World) :
  let opened := filter (is_open_for user) (entries w) in
  let w' := snd (clock_in cfg user w) in
  (List.length (filter (is_open_for user) (entries w')) <= 1)%nat /\
  exists new,
    entries w' = entries (auto_close cfg opened w) ++ [new] /\
    (forall r, In r (entries (auto_close cfg opened w)) ->
       user_id r = user_pk user -> time_out r <> None) /\
    user_id new = user_pk user /\
    time_out new = None /\
    time_in new = clock w (reads w + List.length opened) /\
    filter (is_open_for user) (entries w') = [new].
Proof.
  intros opened w'. subst opened w'.
  set (w1 := auto_close cfg (filter (is_open_for user) (entries w)) w).
  assert (Hnone : forall r, In r (entries w1) -> is_open_for user r = false).
  { apply auto_close_none_open. intros r Hr.
    destruct (is_open_for user r) eqn:E; [right | left; reflexivity].
    exists r. split; trivial. apply filter_In. split; trivial. }
  assert (Hrun : entries (snd (clock_in cfg user w)) =
                 entries w1 ++ [created user w1]).
  { rewrite clock_in_run. reflexivity. }
  assert (Hfilter : filter (is_open_for user) (entries (snd (clock_in cfg user w))) =
                    [created user w1]).
  { rewrite Hrun, filter_app, (filter_none _ _ Hnone). simpl.
    unfold is_open_for. simpl. rewrite Z.eqb_refl. reflexivity. }
  split.
  - rewrite Hfilter. simpl. lia.
  - exists (created user w1).
    split; [ | split; [ | split; [ | split; [ | split]]]]; trivial.
    + intros r Hr Hu E. specialize (Hnone r Hr).
      unfold is_open_for in Hnone. rewrite Hu, Z.eqb_refl, E in Hnone.
      discriminate.
    + simpl. unfold w1. rewrite auto_close_clock, auto_close_reads.
      reflexivity.
Qed.

(** C8, as the code has it.  When the reading of the clock taken for the
    first-entry test falls, in UTC, on the calendar date that the new
    entry's [time_in] has in the current time zone, the filter of that
    test matches the row just inserted, the lateness branch is skipped and
    the new entry is returned with [is_late = false], whatever the time
    of the clock-in. *)
Theorem clock_in_same_day_not_late (user : CustomUser) (w : World) :
  let n := List.length (filter (is_open_for user) (entries w)) in
  let t_in := clock w (reads w + n) in
  let t_test := clock w (S (reads w + n)) in
  Datetime.date (aware t_test) = Datetime.date (local cfg t_in) ->
  exists e,
    fst (clock_in cfg user w) = Ok e /\
    is_late e = false /\
    time_in e = t_in /\
    In e (entries (snd (clock_in cfg user w))).
Proof.
  intros n t_in t_test Hday.
  set (w1 := auto_close cfg (filter (is_open_for user) (entries w)) w).
  assert (Hin : time_in (created user w1) = t_in).
  { simpl. unfold w1. rewrite auto_close_clock, auto_close_reads. reflexivity. }
  exists (created user w1). rewrite clock_in_run. fold w1. simpl.
  rewrite existsb_app. simpl. rewrite Z.eqb_refl. simpl.
  replace (time_in__date cfg (created user w1) =? _) with true.
  - rewrite orb_true_r. repeat split; trivial.
    apply in_or_app. right. left. reflexivity.
  - symmetry. apply Z.eqb_eq. unfold time_in__date. rewrite Hin.
    unfold w1. rewrite auto_close_clock, auto_close_reads.
    symmetry. exact Hday.
Qed.

End ClockIn.

(* ===================================================================== *)
(** ** Hours worked                                                       *)
(* ===================================================================== *)

Section Hours.

Variable cfg : Settings.

(** The open entries of a user have distinct keys when the table has. *)
Lemma open_entries_distinct (user : CustomUser) (l : list TimeEntry) :
  NoDup (map pk l) -> NoDup (map pk (filter (is_open_for user) l)).
Proof.
  induction l as [ | a l IH]; simpl; intros H; trivial.
  inversion H as [ | x xs Hfresh Hrest]; subst.
  destruct (is_open_for user a); simpl; [ | apply IH, Hrest].
  constructor; [ | apply IH, Hrest].
  intros Hin. apply Hfresh.
  apply in_map_iff in Hin as (y & Hy & Hin).
  apply filter_In in Hin as [Hin _].
  rewrite <- Hy. apply in_map, Hin.
Qed.

(** What the loop of [clock_in] leaves in each row: a row whose key the
    loop does not visit is kept; a row whose key is visited at step [j]
    holds the instance closed at the [j]-th reading of the clock. *)
Lemma auto_close_rows l : forall w,
  NoDup (map pk l) ->
  forall i r, nth_error (entries w) i = Some r ->
    ((forall r0, In r0 l -> pk r0 <> pk r) ->
     nth_error (entries (auto_close cfg l w)) i = Some r) /\
    (forall j r0, nth_error l j = Some r0 -> pk r0 = pk r ->
     nth_error (entries (auto_close cfg l w)) i =
       Some (closed_at cfg (clock w (reads w + j)) r0)).
Proof.
  induction l as [ | e l IH]; intros w Hnodup i r Hi.
  - split; [trivial | ]. intros [ | j] r0 H; discriminate.
  - inversion Hnodup as [ | x xs Hnotin Hnodup']; subst.
    change (auto_close cfg (e :: l) w)
      with (auto_close cfg l (snd (clock_out cfg e w))).
    assert (Hrow : nth_error (entries (snd (clock_out cfg e w))) i =
                   Some (if pk r =? pk e
                         then closed_at cfg (clock w (reads w)) e else r)).
    { rewrite clock_out_run. simpl. rewrite nth_error_map, Hi. reflexivity. }
    destruct (IH (snd (clock_out cfg e w)) Hnodup' i _ Hrow) as [Hkeep Hvisit].
    destruct (pk r =? pk e) eqn:E.
    + apply Z.eqb_eq in E. split.
      * intros H. exfalso. apply (H e); [left; reflexivity | congruence].
      * intros [ | j] r0 Hj Hpk; simpl in Hj.
        -- injection Hj as <-. rewrite Nat.add_0_r. apply Hkeep.
           intros r0 Hr0 Hpk0. apply Hnotin. simpl in Hpk0.
           rewrite <- Hpk0. apply in_map, Hr0.
        -- exfalso. apply Hnotin. rewrite <- E, <- Hpk.
           apply in_map. eapply nth_error_In, Hj.
    + apply Z.eqb_neq in E. split.
      * intros H. apply Hkeep. intros r0 Hr0. apply H. right. exact Hr0.
      * intros [ | j] r0 Hj Hpk; simpl in Hj.
        -- injection Hj as <-. congruence.
        -- rewrite (Hvisit j r0 Hj Hpk). rewrite clock_out_run. simpl.
           rewrite Nat.add_succ_r. reflexivity.
Qed.

(** C5. [clock_out] sets [time_out] to the reading of the clock and
    [hours_worked] to [round(seconds / 3600, 2)] of the time elapsed since
    [time_in]; so does [clock_in] for each entry of the user that it finds
    open, with the reading taken when that entry is closed. *)
Theorem clock_out_sets_hours_worked :
  (forall (e : TimeEntry) (w : World),
     exists e',
       fst (clock_out cfg e w) = Ok e' /\
       time_in e' = time_in e /\
       time_out e' = Some (clock w (reads w)) /\
       hours_worked e' = Some (spec_hours (time_in e) (clock w (reads w))) /\
       (In e (entries w) -> In e' (entries (snd (clock_out cfg e w))))) /\
  (forall (user : CustomUser) (w : World) (e : TimeEntry),
     NoDup (map pk (entries w)) ->
     In e (entries w) ->
     is_open_for user e = true ->
     exists (k : nat) (e' : TimeEntry),
       (reads w <= k <
          reads w + List.length (filter (is_open_for user) (entries w)))%nat /\
       In e' (entries (snd (clock_in cfg user w))) /\
       pk e' = pk e /\
       time_in e' = time_in e /\
       time_out e' = Some (clock w k) /\
       hours_worked e' = Some (spec_hours (time_in e) (clock w k))).
Proof.
  split.
  - intros e w. exists (closed_at cfg (clock w (reads w)) e).
    rewrite clock_out_run. simpl. repeat split. apply in_saved.
  - intros user w e Hnodup Hin Hopen.
    set (opened := filter (is_open_for user) (entries w)).
    assert (Ho : In e opened) by (apply filter_In; split; trivial).
    apply In_nth_error in Hin as [i Hi].
    apply In_nth_error in Ho as [j Hj].
    assert (Hlt : (j < List.length opened)%nat).
    { apply nth_error_Some. congruence. }
    destruct (auto_close_rows opened w (open_entries_distinct user _ Hnodup) i e Hi)
      as [_ Hvisit].
    specialize (Hvisit j e Hj eq_refl).
    exists (reads w + j)%nat, (closed_at cfg (clock w (reads w + j)) e).
    split; [fold opened; lia | ].
    split; [ | repeat split].
    rewrite clock_in_run. simpl. fold opened.
    apply in_or_app. left. eapply nth_error_In, Hvisit.
Qed.

Lemma populated_closed_at t e : populated (closed_at cfg t e).
Proof.
  unfold populated. simpl. eexists. split; [reflexivity | ].
  apply spec_hours_nonneg.
Qed.

Lemma clock_out_populated e w :
  all_populated (entries w) ->
  all_populated (entries (snd (clock_out cfg e w))).
Proof.
  intros H r Hr. rewrite clock_out_run in Hr. simpl in Hr.
  apply in_map_iff in Hr as (r0 & <- & Hr0).
  destruct (pk r0 =? pk e); [apply populated_closed_at | apply H, Hr0].
Qed.

Lemma auto_close_populated l w :
  all_populated (entries w) ->
  all_populated (entries (auto_close cfg l w)).
Proof.
  revert w. induction l as [ | e l IH]; intros w H; simpl; trivial.
  apply IH, clock_out_populated, H.
Qed.

Lemma clock_in_populated user w :
  all_populated (entries w) ->
  all_populated (entries (snd (clock_in cfg user w))).
Proof.
  intros H r Hr. rewrite clock_in_run in Hr. simpl in Hr.
  apply in_app_or in Hr as [Hr | [<- | []]].
  - eapply auto_close_populated; eassumption.
  - exact I.
Qed.

Lemma login_view_entries request w :
  entries (snd (login_view request w)) = entries w.
Proof.
  unfold login_view, try_except, CustomUser_get, bind, login.
  destruct (is_post request); trivial.
  destruct (find_user _ _) as [u | ]; trivial.
  destruct (option_string_eqb _ _); simpl; trivial.
  destruct (is_staff u || is_superuser u); reflexivity.
Qed.

Lemma latest_by_time_in_In l e : latest_by_time_in l = Some e -> In e l.
Proof.
  revert e. induction l as [ | a l IH]; simpl; intros e H; [discriminate | ].
  destruct (latest_by_time_in l) as [e' | ].
  - destruct (time_in a <? time_in e'); injection H as <-; auto.
  - injection H as <-. auto.
Qed.

(** The ledger after a view is the one before it, or the one that the
    model operation called by the view leaves. *)
Lemma clock_in_view_entries (P : list TimeEntry -> Prop) request w :
  P (entries w) ->
  (forall user, P (entries (snd (clock_in cfg user w)))) ->
  P (entries (snd (clock_in_view cfg request w))).
Proof.
  intros H0 H1. unfold clock_in_view, try_except, CustomUser_get.
  destruct (is_post request); simpl; trivial.
  destruct (find_user _ _) as [u | ]; simpl; trivial.
  destruct (option_string_eqb _ _); simpl; trivial.
  unfold bind at 1. specialize (H1 u).
  destruct (clock_in cfg u w) as [[entry | x] w']; exact H1.
Qed.

Lemma clock_out_view_entries (P : list TimeEntry -> Prop) request w :
  P (entries w) ->
  (forall e, In e (entries w) -> P (entries (snd (clock_out cfg e w)))) ->
  P (entries (snd (clock_out_view cfg request w))).
Proof.
  intros H0 H1. unfold clock_out_view, try_except at 1, CustomUser_get.
  destruct (is_post request); simpl; trivial.
  destruct (find_user _ _) as [u | ]; simpl; trivial.
  destruct (option_string_eqb _ _); simpl; trivial.
  unfold try_except, TimeEntry_latest. unfold bind at 1.
  destruct (latest_by_time_in (filter (is_open_for u) (entries w)))
    as [open_entry | ] eqn:E; simpl; trivial.
  apply latest_by_time_in_In, filter_In in E.
  apply (H1 open_entry). tauto.
Qed.

Lemma reachable_populated w : reachable cfg w -> all_populated (entries w).
Proof.
  induction 1 as [w H | w w' _ IH H | w user _ IH | w e _ IH _
                  | w request _ IH | w request _ IH | w request _ IH].
  - intros e He. rewrite H in He. contradiction.
  - rewrite H. exact IH.
  - apply clock_in_populated, IH.
  - apply clock_out_populated, IH.
  - rewrite login_view_entries. exact IH.
  - apply clock_in_view_entries; trivial.
    intros user. apply clock_in_populated, IH.
  - apply clock_out_view_entries; trivial.
    intros e _. apply clock_out_populated, IH.
Qed.

(** C10. In every ledger that the operations build, a closed entry is
    fully populated: if [time_out] is set then so is [hours_worked], and
    [hours_worked] is not negative whenever [time_out] is not earlier
    than [time_in].  The row that [clock_in] inserts, which is the entry
    it returns, starts with neither [time_out] nor [hours_worked]. *)
Theorem closed_entries_are_populated (w : World) :
  reachable cfg w ->
  (forall e t,
     In e (entries w) -> time_out e = Some t ->
     exists h, hours_worked e = Some h /\
               (time_in e <= t -> PyFloat.nonneg h = true)) /\
  (forall user,
     exists rows new,
       entries (snd (clock_in cfg user w)) = rows ++ [new] /\
       List.length rows = List.length (entries w) /\
       time_out new = None /\
       hours_worked new = None /\
       (forall e, fst (clock_in cfg user w) = Ok e -> e = new)).
Proof.
  intros Hreach. split.
  - intros e t He Ht. pose proof (reachable_populated w Hreach e He) as Hp.
    unfold populated in Hp. rewrite Ht in Hp. exact Hp.
  - intros user.
    set (w1 := auto_close cfg (filter (is_open_for user) (entries w)) w).
    exists (entries w1), (created user w1).
    rewrite clock_in_run. fold w1. simpl. repeat split.
    + rewrite <- (length_map pk (entries w1)), <- (length_map pk (entries w)).
      unfold w1. rewrite auto_close_pks. reflexivity.
    + intros e. destruct (existsb _ _); [ | discriminate].
      intros [= <-]. reflexivity.
Qed.

End Hours.

(* ===================================================================== *)
(** ** The operations on the sample data                                  *)
(* ===================================================================== *)

(** The lateness rule of the specification on its own examples. *)
Example spec_late_at_creation_examples :
  spec_late_at_creation (Sample.at_ 20000 8 6) = true /\
  spec_late_at_creation (Sample.at_ 20000 8 5) = false /\
  spec_late_at_creation (Sample.at_ 20000 8 4) = false.
Proof. repeat split. Qed.

(** Eight and a half hours between 08:30 and 17:00. *)
Example spec_hours_example :
  spec_hours (Sample.at_ 20000 8 30) (Sample.at_ 20000 17 0) =
  PyFloat.int_truediv 85 10.
Proof. vm_compute. reflexivity. Qed.

(** [round] works on the binary value: 2.675 hours (9630 seconds) are
    stored as 2.67, not 2.68. *)
Example spec_hours_rounds_binary_value :
  spec_hours 0 9630000000 = PyFloat.int_truediv 267 100.
Proof. vm_compute. reflexivity. Qed.

(** C1, on the code.  Alice has no entry at all and clocks in at 08:06 of a
    day, local time: the rule of the specification makes the entry late,
    [clock_in] returns it with [is_late = false]. *)
Theorem clock_in_first_entry_at_0806_not_flagged :
  let now := Sample.at_ 20000 8 6 in
  let w := Sample.fresh now in
  entries w = [] /\
  spec_late_at_creation (Datetime.wall_clock (local Sample.utc now)) = true /\
  exists e,
    fst (clock_in Sample.utc Sample.alice w) = Ok e /\
    time_in e = now /\
    is_late e = false.
Proof.
  cbv zeta. split; [reflexivity | ]. split; [vm_compute; reflexivity | ].
  eexists. split; [vm_compute; reflexivity | ]. split; reflexivity.
Qed.

(** C3 on a closed entry: Alice's entry of 08:30 to 17:00, closed again an
    hour later. *)
Lemma clock_out_overwrites_closed_entry_witness :
  let w := Sample.holding Sample.closed_entry (Sample.at_ 20000 18 0) in
  exists e',
    fst (clock_out Sample.utc Sample.closed_entry w) = Ok e' /\
    time_out e' = Some (Sample.at_ 20000 18 0) /\
    hours_worked e' =
      Some (spec_hours (Sample.at_ 20000 8 30) (Sample.at_ 20000 18 0)) /\
    is_late e' =
      (Datetime.mk_time 9 0
         <? Datetime.time (local Sample.utc (Sample.at_ 20000 8 30))) /\
    entries (snd (clock_out Sample.utc Sample.closed_entry w)) =
      map (fun r => if pk r =? pk Sample.closed_entry then e' else r) (entries w) /\
    (Sample.at_ 20000 18 0 <> Sample.at_ 20000 17 0 -> e' <> Sample.closed_entry).
Proof.
  exact (clock_out_overwrites_closed_entry Sample.utc Sample.closed_entry
           (Sample.holding Sample.closed_entry (Sample.at_ 20000 18 0))
           (Sample.at_ 20000 17 0) eq_refl).
Defined.

(** C5 on an open entry that [clock_in] closes on the way. *)
Lemma clock_out_sets_hours_worked_witness :
  let w := Sample.holding Sample.open_entry (Sample.at_ 20000 17 0) in
  exists (k : nat) (e' : TimeEntry),
    (reads w <= k <
       reads w + List.length (filter (is_open_for Sample.alice) (entries w)))%nat /\
    In e' (entries (snd (clock_in Sample.utc Sample.alice w))) /\
    pk e' = pk Sample.open_entry /\
    time_in e' = time_in Sample.open_entry /\
    time_out e' = Some (clock w k) /\
    hours_worked e' = Some (spec_hours (time_in Sample.open_entry) (clock w k)).
Proof.
  refine (proj2 (clock_out_sets_hours_worked Sample.utc) Sample.alice
            (Sample.holding Sample.open_entry (Sample.at_ 20000 17 0))
            Sample.open_entry _ _ eq_refl).
  - simpl. constructor; [intros [] | constructor].
  - left. reflexivity.
Defined.

(** C6 on Alice, whose only entry is closed. *)
Lemma clock_out_view_no_active_session_witness :
  let w := Sample.holding Sample.closed_entry (Sample.at_ 20000 18 0) in
  clock_out_view Sample.utc (Sample.post "000001" "1234") w =
    (Ok (JsonFailure "No active clock in found."), w).
Proof.
  refine (clock_out_view_no_active_session Sample.utc
            (Sample.post "000001" "1234")
            (Sample.holding Sample.closed_entry (Sample.at_ 20000 18 0))
            Sample.alice eq_refl eq_refl eq_refl _).
  intros e [<- | []] _. discriminate.
Defined.

(** C7 as stated fails: an unknown identifier and a wrong secret, for a
    regular user as for a member of staff, give the very same result. *)
Lemma authenticate_by_pin_conflates_failures :
  let w := Sample.fresh 0 in
  find_user (Some "999999"%string) (users w) = None /\
  find_user (Some "000001"%string) (users w) = Some Sample.alice /\
  find_user (Some "000002"%string) (users w) = Some Sample.boss /\
  authenticate_by_pin Sample.utc (Some "999999"%string) (Some "1234"%string) w
    = (Ok None, w) /\
  authenticate_by_pin Sample.utc (Some "000001"%string) (Some "9999"%string) w
    = (Ok None, w) /\
  authenticate_by_pin Sample.utc (Some "000002"%string) (Some "wrong"%string) w
    = (Ok None, w).
Proof. cbv zeta. repeat split. Qed.

(** C8 as stated fails: the day changes between the insertion and the
    test.  The filter looks for entries of the new day and misses the row
    just inserted, the lateness branch runs, and its comparison of an aware
    with a naive datetime raises: no entry is returned. *)
Lemma clock_in_across_midnight_raises :
  let w := Sample.at_midnight 20000 in
  fst (clock_in Sample.utc Sample.alice w) = Raise TypeError /\
  ~ (exists e, fst (clock_in Sample.utc Sample.alice w) = Ok e /\
               is_late e = false).
Proof.
  cbv zeta.
  assert (H : fst (clock_in Sample.utc Sample.alice (Sample.at_midnight 20000))
              = Raise TypeError) by (vm_compute; reflexivity).
  split; [exact H | ]. intros (e & He & _). rewrite H in He. discriminate.
Qed.

(** The same happens with a steady clock east of UTC: at 07:00 local time
    of day 20001 the UTC date is still day 20000. *)
Example clock_in_before_utc_midnight_raises :
  let now := Sample.at_ 20000 23 0 in
  Datetime.time (local Sample.utc_plus_8 now) = Datetime.mk_time 7 0 /\
  Datetime.date (local Sample.utc_plus_8 now) = 20001 /\
  fst (clock_in Sample.utc_plus_8 Sample.alice (Sample.fresh now))
    = Raise TypeError.
Proof. cbv zeta. repeat split; vm_compute; reflexivity. Qed.

(** C8 on a clock-in at 08:06 into an empty ledger. *)
Lemma clock_in_same_day_not_late_witness :
  let w := Sample.fresh (Sample.at_ 20000 8 6) in
  exists e,
    fst (clock_in Sample.utc Sample.alice w) = Ok e /\
    is_late e = false /\
    time_in e = Sample.at_ 20000 8 6 /\
    In e (entries (snd (clock_in Sample.utc Sample.alice w))).
Proof.
  exact (clock_in_same_day_not_late Sample.utc Sample.alice
           (Sample.fresh (Sample.at_ 20000 8 6)) eq_refl).
Defined.

(** C9 on a member of staff who submits the right password. *)
Lemma views_compare_pin_literally_witness :
  let w := Sample.fresh (Sample.at_ 20000 8 6) in
  let request := Sample.post "000002" "s3cret" in
  check_password Sample.utc Sample.boss (req_pin request) = true /\
  login_view request w =
    (Ok (Render "index.html" (Some "Incorrect PIN"%string)), w) /\
  clock_in_view Sample.utc request w = (Ok (JsonFailure "Incorrect PIN"), w) /\
  clock_out_view Sample.utc request w = (Ok (JsonFailure "Incorrect PIN"), w).
Proof.
  split; [reflexivity | ].
  refine (proj1 (views_compare_pin_literally Sample.utc
                   (Sample.post "000002" "s3cret")
                   (Sample.fresh (Sample.at_ 20000 8 6))
                   Sample.boss eq_refl eq_refl) _).
  discriminate.
Defined.

(** C10 on the ledger left by two clock-ins of Alice, at 08:06 and at
    17:00: the first entry is closed and populated, the second is open, and
    a further clock-in inserts a row without [time_out] and
    [hours_worked]. *)
Lemma closed_entries_are_populated_witness :
  let w := snd (clock_in Sample.utc Sample.alice
                  (snd (clock_in Sample.utc Sample.alice
                          Fixture.working_day))) in
  reachable Sample.utc w /\
  List.length (entries w) = 2%nat /\
  (exists e,
     In e (entries w) /\
     time_in e = Sample.at_ 20000 8 6 /\
     time_out e = Some (Sample.at_ 20000 17 0) /\
     exists h, hours_worked e = Some h /\
               (time_in e <= Sample.at_ 20000 17 0 ->
                PyFloat.nonneg h = true)) /\
  (forall user,
     exists rows new,
       entries (snd (clock_in Sample.utc user w)) = rows ++ [new] /\
       List.length rows = List.length (entries w) /\
       time_out new = None /\
       hours_worked new = None /\
       (forall e, fst (clock_in Sample.utc user w) = Ok e -> e = new)).
Proof.
  assert (H : reachable Sample.utc
                (snd (clock_in Sample.utc Sample.alice
                        (snd (clock_in Sample.utc Sample.alice
                                Fixture.working_day))))).
  { apply reach_clock_in, reach_clock_in, reach_empty. reflexivity. }
  destruct (closed_entries_are_populated Sample.utc _ H) as [Hclosed Hnew].
  split; [exact H | ]. split; [reflexivity | ]. split; [ | exact Hnew].
  eexists. split; [left; reflexivity | ].
  split; [reflexivity | ]. split; [reflexivity | ].
  eapply Hclosed; [left; reflexivity | reflexivity].
Defined.

(* ===================================================================== *)
(** ** More on the clock service                                          *)
(* ===================================================================== *)

Section Service.

Variable cfg : Settings.

Lemma auto_close_users l w : users (auto_close cfg l w) = users w.
Proof.
  revert w. induction l as [ | e l IH]; intros w; simpl; trivial.
  rewrite IH. reflexivity.
Qed.

Lemma auto_close_session l w : session (auto_close cfg l w) = session w.
Proof.
  revert w. induction l as [ | e l IH]; intros w; simpl; trivial.
  rewrite IH. reflexivity.
Qed.

Lemma existsb_false_iff {A} (p : A -> bool) (l : list A) :
  existsb p l = false <-> forall x, In x l -> p x = false.
Proof.
  split.
  - intros H x Hx. destruct (p x) eqn:E; trivial.
    assert (existsb p l = true) by (apply existsb_exists; eauto). congruence.
  - intros H. destruct (existsb p l) eqn:E; trivial.
    apply existsb_exists in E as (x & Hx & Hp). rewrite (H x Hx) in Hp.
    discriminate.
Qed.

(** X1. [clock_in] never returns a late entry.  It either returns the row
    it inserted, unflagged and open, or raises [TypeError] and nothing
    else; it raises exactly when no entry of the user, the new row
    included, has for local date the UTC date of the reading taken by the
    first-entry test. *)
Theorem clock_in_returns_unflagged_or_raises (user : CustomUser) (w : World) :
  let n := List.length (filter (is_open_for user) (entries w)) in
  let today := Datetime.date (aware (clock w (S (reads w + n)))) in
  (forall e,
     fst (clock_in cfg user w) = Ok e ->
     is_late e = false /\ time_out e = None /\ hours_worked e = None /\
     user_id e = user_pk user /\ time_in e = clock w (reads w + n) /\
     In e (entries (snd (clock_in cfg user w)))) /\
  (forall x, fst (clock_in cfg user w) = Raise x -> x = TypeError) /\
  (fst (clock_in cfg user w) = Raise TypeError <->
   forall e, In e (entries (snd (clock_in cfg user w))) ->
             user_id e = user_pk user -> time_in__date cfg e <> today).
Proof.
  intros n today. rewrite clock_in_run.
  set (w1 := auto_close cfg (filter (is_open_for user) (entries w)) w).
  assert (Hclock : clock w1 = clock w) by apply auto_close_clock.
  assert (Hreads : reads w1 = (reads w + n)%nat) by apply auto_close_reads.
  cbn [fst snd entries with_entries].
  rewrite Hclock, Hreads. fold today.
  destruct (existsb _ (entries w1 ++ [created user w1])) eqn:E.
  - split; [ | split].
    + intros e [= <-]. simpl. rewrite Hclock, Hreads. repeat split.
      apply in_or_app. right. left. reflexivity.
    + intros x [=].
    + split; [discriminate | ]. intros H. exfalso.
      apply existsb_exists in E as (e & He & Hp).
      apply andb_prop in Hp as [Hu Hd].
      apply Z.eqb_eq in Hu. apply Z.eqb_eq in Hd.
      exact (H e He Hu Hd).
  - split; [ | split].
    + intros e [=].
    + intros x [= <-]. reflexivity.
    + split; [ | reflexivity]. intros _ e He Hu Hd.
      rewrite existsb_false_iff in E. specialize (E e He).
      rewrite Hu, Hd, !Z.eqb_refl in E. discriminate.
Qed.

(** *** At most one open entry per user *)

Lemma filter_map_length_le {A} (p : A -> bool) (f : A -> A) (l : list A) :
  (forall x, p (f x) = true -> p x = true) ->
  (List.length (filter p (map f l)) <= List.length (filter p l))%nat.
Proof.
  intros H. induction l as [ | a l IH]; simpl; trivial.
  destruct (p (f a)) eqn:E.
  - rewrite (H a E). simpl. lia.
  - destruct (p a); simpl; lia.
Qed.

Lemma clock_out_one_open e w :
  one_open_each (entries w) ->
  one_open_each (entries (snd (clock_out cfg e w))).
Proof.
  intros H user. rewrite clock_out_run. simpl.
  etransitivity; [ | apply (H user)].
  apply filter_map_length_le. intros r.
  destruct (pk r =? pk e); trivial.
  rewrite is_open_for_closed_at. discriminate.
Qed.

Lemma auto_close_one_open l w :
  one_open_each (entries w) ->
  one_open_each (entries (auto_close cfg l w)).
Proof.
  revert w. induction l as [ | e l IH]; intros w H; simpl; trivial.
  apply IH, clock_out_one_open, H.
Qed.

Lemma clock_in_one_open user w :
  one_open_each (entries w) ->
  one_open_each (entries (snd (clock_in cfg user w))).
Proof.
  intros H other. rewrite clock_in_run. simpl.
  set (w1 := auto_close cfg (filter (is_open_for user) (entries w)) w).
  rewrite filter_app, length_app. simpl.
  destruct (is_open_for other (created user w1)) eqn:E.
  - assert (Hsame : user_pk user = user_pk other).
    { unfold is_open_for in E. simpl in E.
      apply andb_prop in E as [E _]. apply Z.eqb_eq, E. }
    rewrite filter_none; [simpl; lia | ].
    intros r Hr.
    replace (is_open_for other r) with (is_open_for user r)
      by (unfold is_open_for; rewrite Hsame; reflexivity).
    revert r Hr. apply auto_close_none_open. intros r Hr.
    destruct (is_open_for user r) eqn:Eo; [right | left; reflexivity].
    exists r. split; trivial. apply filter_In. split; trivial.
  - simpl. rewrite Nat.add_0_r.
    apply auto_close_one_open, H.
Qed.

Lemma reachable_one_open w : reachable cfg w -> one_open_each (entries w).
Proof.
  induction 1 as [w H | w w' _ IH H | w user _ IH | w e _ IH _
                  | w request _ IH | w request _ IH | w request _ IH].
  - intros user. rewrite H. simpl. lia.
  - rewrite H. exact IH.
  - apply clock_in_one_open, IH.
  - apply clock_out_one_open, IH.
  - rewrite login_view_entries. exact IH.
  - apply clock_in_view_entries; trivial.
    intros user. apply clock_in_one_open, IH.
  - apply clock_out_view_entries; trivial.
    intros e _. apply clock_out_one_open, IH.
Qed.

(** X2. In every ledger that the operations build one after the other, each
    user has at most one open entry. *)
Theorem reachable_at_most_one_open (w : World) (user : CustomUser) :
  reachable cfg w ->
  (List.length (filter (is_open_for user) (entries w)) <= 1)%nat.
Proof. intros H. apply (reachable_one_open w H user). Qed.

(** *** Keys *)

Lemma next_pk_above (l : list TimeEntry) (r : TimeEntry) :
  In r l -> pk r < next_pk l.
Proof.
  unfold next_pk.
  induction l as [ | a l IH]; cbn [In map fold_right]; intros H;
    [contradiction | ].
  destruct H as [-> | H]; [lia | ]. specialize (IH H). lia.
Qed.

Lemma clock_out_pks e w :
  map pk (entries (snd (clock_out cfg e w))) = map pk (entries w).
Proof.
  rewrite clock_out_run. simpl. rewrite map_map. apply map_ext.
  intros r. destruct (pk r =? pk e) eqn:E; trivial.
  simpl. symmetry. apply Z.eqb_eq, E.
Qed.

Lemma clock_in_pks user w :
  exists k,
    map pk (entries (snd (clock_in cfg user w))) = map pk (entries w) ++ [k] /\
    ~ In k (map pk (entries w)).
Proof.
  rewrite clock_in_run. simpl.
  set (w1 := auto_close cfg (filter (is_open_for user) (entries w)) w).
  exists (next_pk (entries w1)). rewrite map_app. simpl.
  pose proof (auto_close_pks cfg (filter (is_open_for user) (entries w)) w) as Hp.
  fold w1 in Hp. rewrite Hp. split; trivial.
  rewrite <- Hp. intros Hin.
  apply in_map_iff in Hin as (r & Hr & Hin).
  pose proof (next_pk_above _ _ Hin). lia.
Qed.

Lemma NoDup_snoc {A} (l : list A) (x : A) :
  NoDup l -> ~ In x l -> NoDup (l ++ [x]).
Proof.
  intros Hl Hx. induction Hl as [ | a l Ha Hl IH]; simpl.
  - constructor; [intros [] | constructor].
  - constructor.
    + intros Hin. apply in_app_or in Hin as [Hin | [-> | []]].
      * contradiction.
      * apply Hx. left. reflexivity.
    + apply IH. intros Hin. apply Hx. right. exact Hin.
Qed.

Lemma clock_in_keys_distinct user w :
  NoDup (map pk (entries w)) ->
  NoDup (map pk (entries (snd (clock_in cfg user w)))).
Proof.
  intros H. destruct (clock_in_pks user w) as (k & -> & Hk).
  apply NoDup_snoc; assumption.
Qed.

(** X3. In every ledger that the operations build, no two entries share a
    key: [clock_out] and the saves keep the keys, [clock_in] adds a key
    that is above all the others. *)
Theorem reachable_keys_distinct (w : World) :
  reachable cfg w -> NoDup (map pk (entries w)).
Proof.
  induction 1 as [w H | w w' _ IH H | w user _ IH | w e _ IH _
                  | w request _ IH | w request _ IH | w request _ IH].
  - rewrite H. constructor.
  - rewrite H. exact IH.
  - apply clock_in_keys_distinct, IH.
  - rewrite clock_out_pks. exact IH.
  - rewrite login_view_entries. exact IH.
  - apply (clock_in_view_entries cfg (fun l => NoDup (map pk l))); trivial.
    intros user. apply clock_in_keys_distinct, IH.
  - apply (clock_out_view_entries cfg (fun l => NoDup (map pk l))); trivial.
    intros e _. rewrite clock_out_pks. exact IH.
Qed.

End Service.

(* ===================================================================== *)
(** ** What an operation leaves alone                                     *)
(* ===================================================================== *)

Section Frames.

Variable cfg : Settings.

Lemma same_key_same_row (l : list TimeEntry) (a b : TimeEntry) :
  NoDup (map pk l) -> In a l -> In b l -> pk a = pk b -> a = b.
Proof.
  intros Hn Ha Hb Hpk.
  apply In_nth_error in Ha as [i Hi]. apply In_nth_error in Hb as [j Hj].
  assert (Hi' : nth_error (map pk l) i = Some (pk a))
    by (rewrite nth_error_map, Hi; reflexivity).
  assert (Hj' : nth_error (map pk l) j = Some (pk b))
    by (rewrite nth_error_map, Hj; reflexivity).
  assert (i = j).
  { apply (proj1 (NoDup_nth_error (map pk l)) Hn).
    - apply nth_error_Some. congruence.
    - congruence. }
  subst j. congruence.
Qed.

(** X4. [clock_out] writes one row and only that row.  When keys are
    distinct and the entry is in the ledger, every other row is kept where
    it is, the row of the entry keeps its key, its user and its [time_in],
    the ledger keeps its length, and users and session are untouched; the
    clock is read once. *)
Theorem clock_out_writes_one_row (e : TimeEntry) (w : World) :
  NoDup (map pk (entries w)) ->
  In e (entries w) ->
  let w' := snd (clock_out cfg e w) in
  users w' = users w /\ session w' = session w /\
  reads w' = S (reads w) /\
  List.length (entries w') = List.length (entries w) /\
  (forall i r,
     nth_error (entries w) i = Some r ->
     exists r',
       nth_error (entries w') i = Some r' /\
       pk r' = pk r /\ user_id r' = user_id r /\ time_in r' = time_in r /\
       (r <> e -> r' = r)).
Proof.
  intros Hn He w'. subst w'. rewrite clock_out_run. simpl.
  rewrite length_map. repeat split.
  intros i r Hi. rewrite nth_error_map, Hi. simpl.
  destruct (pk r =? pk e) eqn:E.
  - apply Z.eqb_eq in E.
    assert (r = e).
    { apply (same_key_same_row (entries w)); trivial.
      eapply nth_error_In, Hi. }
    subst r. eexists. split; [reflexivity | ]. simpl. repeat split.
    intros H. contradiction.
  - exists r. repeat split.
Qed.

(** X5. [clock_in] leaves alone what it does not close.  When keys are
    distinct, every entry of another user and every closed entry of the
    user stays where it is, and the ledger grows by exactly one row; users
    and session are untouched. *)
Theorem clock_in_keeps_other_entries (user : CustomUser) (w : World) :
  NoDup (map pk (entries w)) ->
  let w' := snd (clock_in cfg user w) in
  users w' = users w /\ session w' = session w /\
  List.length (entries w') = S (List.length (entries w)) /\
  (forall i r,
     nth_error (entries w) i = Some r ->
     is_open_for user r = false ->
     nth_error (entries w') i = Some r).
Proof.
  intros Hn w'. subst w'. rewrite clock_in_run. simpl.
  set (opened := filter (is_open_for user) (entries w)).
  rewrite auto_close_users, auto_close_session.
  assert (Hlen : List.length (entries (auto_close cfg opened w)) =
                 List.length (entries w)).
  { rewrite <- (length_map pk (entries (auto_close cfg opened w))),
            <- (length_map pk (entries w)), auto_close_pks. reflexivity. }
  repeat split.
  - rewrite length_app, Hlen. simpl. lia.
  - intros i r Hi Hclosed.
    rewrite nth_error_app1.
    2:{ rewrite Hlen. apply nth_error_Some. congruence. }
    apply (auto_close_rows cfg opened w (open_entries_distinct user _ Hn) i r Hi).
    intros r0 Hr0 Hpk. apply filter_In in Hr0 as [Hr0 Hopen].
    assert (r0 = r).
    { apply (same_key_same_row (entries w)); trivial.
      eapply nth_error_In, Hi. }
    subst r0. congruence.
Qed.

End Frames.

(* ===================================================================== *)
(** ** Clocking out through the view                                      *)
(* ===================================================================== *)

Section ClockOutView.

Variable cfg : Settings.

Lemma latest_by_time_in_nonempty l :
  l <> [] -> exists e, latest_by_time_in l = Some e.
Proof.
  destruct l as [ | a l]; [congruence | ]. intros _. simpl.
  destruct (latest_by_time_in l) as [e' | ]; [ | eauto].
  destruct (time_in a <? time_in e'); eauto.
Qed.

Lemma latest_by_time_in_max l m :
  latest_by_time_in l = Some m -> forall e, In e l -> time_in e <= time_in m.
Proof.
  revert m. induction l as [ | a l IH]; simpl; intros m H e He; [contradiction | ].
  destruct (latest_by_time_in l) as [e' | ] eqn:E.
  - specialize (IH e' eq_refl).
    destruct (time_in a <? time_in e') eqn:Hlt; injection H as <-.
    + apply Z.ltb_lt in Hlt. destruct He as [<- | He]; [lia | auto].
    + apply Z.ltb_ge in Hlt. destruct He as [<- | He]; [lia | ].
      specialize (IH e He). lia.
  - injection H as <-. destruct l as [ | b l].
    + destruct He as [<- | []]. lia.
    + simpl in E. destruct (latest_by_time_in l) as [e' | ];
        [destruct (time_in b <? time_in e') | ]; discriminate.
Qed.

(** X6. With valid credentials and something open, [clock_out_view] closes
    the user's most recent open entry (no open entry of the user has a
    later [time_in]) and no other: the world it leaves is the one left by
    [clock_out] on that entry, and the answer carries the local clock-in
    time of that entry and the local time of the reading. *)
Theorem clock_out_view_closes_latest
    (request : Request) (w : World) (user : CustomUser) (e : TimeEntry) :
  is_post request = true ->
  find_user (req_employee_id request) (users w) = Some user ->
  pin user = req_pin request ->
  In e (entries w) ->
  is_open_for user e = true ->
  exists latest,
    In latest (entries w) /\
    is_open_for user latest = true /\
    (forall e', In e' (entries w) -> is_open_for user e' = true ->
                time_in e' <= time_in latest) /\
    clock_out_view cfg request w =
      (Ok (JsonSuccess (employee_id user) (first_name user) (surname user)
             (company user) (local cfg (time_in latest))
             (Some (local cfg (clock w (reads w))))),
       snd (clock_out cfg latest w)).
Proof.
  intros Hpost Hfound Hpin He Hopen.
  destruct (latest_by_time_in_nonempty (filter (is_open_for user) (entries w)))
    as [latest Hlatest].
  { intros Hnil.
    assert (Hin : In e (filter (is_open_for user) (entries w)))
      by (apply filter_In; split; trivial).
    rewrite Hnil in Hin. contradiction. }
  exists latest.
  pose proof (latest_by_time_in_In _ _ Hlatest) as Hin.
  apply filter_In in Hin as [Hin Hlo].
  split; [exact Hin | ]. split; [exact Hlo | ]. split.
  - intros e' He' Ho'. apply (latest_by_time_in_max _ _ Hlatest).
    apply filter_In. split; trivial.
  - unfold clock_out_view. rewrite Hpost. cbn [negb].
    unfold try_except at 1. unfold CustomUser_get. rewrite Hfound.
    apply option_string_eqb_eq in Hpin. rewrite Hpin. cbn [negb].
    unfold try_except, TimeEntry_latest. unfold bind at 1.
    rewrite Hlatest, clock_out_run. reflexivity.
Qed.

Lemma clock_in_open_entries user w :
  let w1 := auto_close cfg (filter (is_open_for user) (entries w)) w in
  (forall r, In r (entries w1) -> is_open_for user r = false) /\
  filter (is_open_for user) (entries (snd (clock_in cfg user w))) =
    [created user w1].
Proof.
  intros w1.
  assert (Hnone : forall r, In r (entries w1) -> is_open_for user r = false).
  { apply auto_close_none_open. intros r Hr.
    destruct (is_open_for user r) eqn:E; [right | left; reflexivity].
    exists r. split; trivial. apply filter_In. split; trivial. }
  split; trivial.
  rewrite clock_in_run. simpl. fold w1.
  rewrite filter_app, (filter_none _ _ Hnone). simpl.
  unfold is_open_for. simpl. rewrite Z.eqb_refl. reflexivity.
Qed.

(** X7. Clocking in and then out.  After [clock_in], whether it returned or
    raised, a [clock_out_view] with the user's credentials succeeds: it
    closes the entry that [clock_in] created, with the hours between the
    two readings, answers with the two local times, and leaves the user
    without any open entry. *)
Theorem clock_in_then_clock_out_view
    (request : Request) (w : World) (user : CustomUser) :
  is_post request = true ->
  find_user (req_employee_id request) (users w) = Some user ->
  pin user = req_pin request ->
  let n := List.length (filter (is_open_for user) (entries w)) in
  let t_in := clock w (reads w + n) in
  let t_out := clock w (S (S (reads w + n))) in
  let w1 := snd (clock_in cfg user w) in
  fst (clock_out_view cfg request w1) =
    Ok (JsonSuccess (employee_id user) (first_name user) (surname user)
          (company user) (local cfg t_in) (Some (local cfg t_out))) /\
  (exists closed,
     In closed (entries (snd (clock_out_view cfg request w1))) /\
     user_id closed = user_pk user /\
     time_in closed = t_in /\
     time_out closed = Some t_out /\
     hours_worked closed = Some (spec_hours t_in t_out)) /\
  (forall r, In r (entries (snd (clock_out_view cfg request w1))) ->
             is_open_for user r = false).
Proof.
  intros Hpost Hfound Hpin n t_in t_out w1.
  destruct (clock_in_open_entries user w) as [Hnone Hopen].
  set (wa := auto_close cfg (filter (is_open_for user) (entries w)) w) in *.
  set (new := created user wa) in *.
  assert (Hentries : entries w1 = entries wa ++ [new])
    by (unfold w1; rewrite clock_in_run; reflexivity).
  assert (Husers : users w1 = users w).
  { unfold w1. rewrite clock_in_run. simpl. apply auto_close_users. }
  assert (Hclock : clock w1 = clock w).
  { unfold w1. rewrite clock_in_run. simpl. apply auto_close_clock. }
  assert (Hreads : reads w1 = S (S (reads w + n))).
  { unfold w1. rewrite clock_in_run. simpl. unfold wa.
    rewrite auto_close_reads. reflexivity. }
  assert (Htin : time_in new = t_in).
  { simpl. unfold wa. rewrite auto_close_clock, auto_close_reads. reflexivity. }
  assert (Hrun : clock_out_view cfg request w1 =
                 (Ok (JsonSuccess (employee_id user) (first_name user)
                        (surname user) (company user) (local cfg (time_in new))
                        (Some (local cfg (clock w1 (reads w1))))),
                  snd (clock_out cfg new w1))).
  { unfold clock_out_view. rewrite Hpost. cbn [negb].
    unfold try_except at 1. unfold CustomUser_get. rewrite Husers, Hfound.
    apply option_string_eqb_eq in Hpin. rewrite Hpin. cbn [negb].
    unfold try_except, TimeEntry_latest. unfold bind at 1.
    fold w1 in Hopen. rewrite Hopen. cbn [latest_by_time_in].
    rewrite clock_out_run. reflexivity. }
  rewrite Hrun. clear Hrun.
  change (fst (?a, ?b)) with a. change (snd (?a, ?b)) with b.
  rewrite Htin, Hclock, Hreads.
  split; [reflexivity | ]. rewrite clock_out_run.
  change (entries (snd (?a, ?b))) with (entries b).
  change (entries (with_entries ?a ?l)) with l.
  rewrite Hclock, Hreads. fold t_out. split.
  - exists (closed_at cfg t_out new). split.
    + apply in_saved. rewrite Hentries. apply in_or_app. right. left. reflexivity.
    + rewrite <- Htin. repeat split.
  - intros r Hr. apply in_map_iff in Hr as (r0 & <- & Hr0).
    destruct (pk r0 =? pk new) eqn:E; [apply is_open_for_closed_at | ].
    rewrite Hentries in Hr0. apply in_app_or in Hr0 as [Hr0 | [<- | []]].
    + apply Hnone, Hr0.
    + rewrite Z.eqb_refl in E. discriminate.
Qed.

End ClockOutView.

(* ===================================================================== *)
(** ** The views                                                          *)
(* ===================================================================== *)

Section Views.

Variable cfg : Settings.

Lemma clock_in_view_refusal request w r :
  fst (clock_in_view cfg request w) = Ok r ->
  (forall a b c d t o, r <> JsonSuccess a b c d t o) ->
  snd (clock_in_view cfg request w) = w.
Proof.
  remember (clock_in_view cfg request w) as x eqn:Hx.
  unfold clock_in_view in Hx.
  destruct (is_post request); cbn [negb] in Hx; [ | subst x; reflexivity].
  unfold try_except, CustomUser_get in Hx.
  destruct (find_user (req_employee_id request) (users w)) as [user | ];
    [ | subst x; reflexivity].
  destruct (option_string_eqb (pin user) (req_pin request)); cbn [negb] in Hx;
    [ | subst x; reflexivity].
  unfold bind at 1 in Hx. rewrite clock_in_run in Hx.
  match type of Hx with
  | context [existsb ?p ?l] => destruct (existsb p l)
  end; subst x; simpl; intros H Hr.
  - injection H as <-. exfalso. eapply Hr. reflexivity.
  - discriminate.
Qed.

Lemma clock_out_view_refusal request w r :
  fst (clock_out_view cfg request w) = Ok r ->
  (forall a b c d t o, r <> JsonSuccess a b c d t o) ->
  snd (clock_out_view cfg request w) = w.
Proof.
  remember (clock_out_view cfg request w) as x eqn:Hx.
  unfold clock_out_view in Hx.
  destruct (is_post request); cbn [negb] in Hx; [ | subst x; reflexivity].
  unfold try_except at 1 in Hx. unfold CustomUser_get in Hx.
  destruct (find_user (req_employee_id request) (users w)) as [user | ];
    [ | subst x; reflexivity].
  destruct (option_string_eqb (pin user) (req_pin request)); cbn [negb] in Hx;
    [ | subst x; reflexivity].
  unfold try_except, TimeEntry_latest in Hx. unfold bind at 1 in Hx.
  destruct (latest_by_time_in (filter (is_open_for user) (entries w)));
    [ | subst x; reflexivity].
  rewrite clock_out_run in Hx. subst x. simpl. intros H Hr.
  injection H as <-. exfalso. eapply Hr. reflexivity.
Qed.

Lemma login_view_render request w template error :
  fst (login_view request w) = Ok (Render template error) ->
  snd (login_view request w) = w.
Proof.
  remember (login_view request w) as x eqn:Hx.
  unfold login_view in Hx.
  destruct (is_post request); [ | subst x; reflexivity].
  unfold try_except, CustomUser_get in Hx.
  destruct (find_user (req_employee_id request) (users w)) as [user | ];
    [ | subst x; reflexivity].
  destruct (option_string_eqb (pin user) (req_pin request)); cbn [negb] in Hx;
    [ | subst x; reflexivity].
  unfold bind, login in Hx.
  destruct (is_staff user || is_superuser user); subst x; simpl; discriminate.
Qed.

(** X8. A refusal writes nothing.  Whenever a clock view answers with a
    failure or refuses the method, and whenever [login_view] renders its
    form, the world is exactly the one the request found: no entry is
    written, the clock is not read, nobody is logged in. *)
Theorem refusals_write_nothing (request : Request) (w : World) :
  (forall msg, fst (clock_in_view cfg request w) = Ok (JsonFailure msg) ->
               snd (clock_in_view cfg request w) = w) /\
  (fst (clock_in_view cfg request w) = Ok NotAllowed ->
   snd (clock_in_view cfg request w) = w) /\
  (forall msg, fst (clock_out_view cfg request w) = Ok (JsonFailure msg) ->
               snd (clock_out_view cfg request w) = w) /\
  (fst (clock_out_view cfg request w) = Ok NotAllowed ->
   snd (clock_out_view cfg request w) = w) /\
  (forall template error,
     fst (login_view request w) = Ok (Render template error) ->
     snd (login_view request w) = w).
Proof.
  split; [ | split; [ | split; [ | split]]].
  - intros msg H. apply (clock_in_view_refusal _ _ _ H). discriminate.
  - intros H. apply (clock_in_view_refusal _ _ _ H). discriminate.
  - intros msg H. apply (clock_out_view_refusal _ _ _ H). discriminate.
  - intros H. apply (clock_out_view_refusal _ _ _ H). discriminate.
  - apply login_view_render.
Qed.





(** X11. Logging in and out.  [logout_view] needs no POST and no session:
    after any request to [login_view] followed by any request to
    [logout_view] the session is empty and the ledger is the one that the
    first request found.  The answer is a redirect to the name "login",
    which the URL patterns route back to [login_view]. *)
Theorem login_then_logout (r1 r2 : Request) (w : World) :
  session (snd (logout_view r2 (snd (login_view r1 w)))) = None /\
  entries (snd (logout_view r2 (snd (login_view r1 w)))) = entries w /\
  fst (logout_view r2 (snd (login_view r1 w))) = Ok (Redirect "login") /\
  exists route, reverse "login" = Some route /\ resolve route = Some LoginView.
Proof.
  split; [reflexivity | ]. split; [ | split].
  - change (entries (snd (logout_view r2 ?x))) with (entries x).
    apply login_view_entries.
  - reflexivity.
  - eexists. split; reflexivity.
Qed.

Lemma pin_match_not_refused request w user :
  is_post request = true ->
  find_user (req_employee_id request) (users w) = Some user ->
  pin user = req_pin request ->
  fst (login_view request w) <>
    Ok (Render "index.html" (Some "Incorrect PIN"%string)) /\
  fst (clock_in_view cfg request w) <> Ok (JsonFailure "Incorrect PIN") /\
  fst (clock_out_view cfg request w) <> Ok (JsonFailure "Incorrect PIN").
Proof.
  intros Hpost Hfound Hpin.
  apply option_string_eqb_eq in Hpin.
  unfold login_view, clock_in_view, clock_out_view.
  rewrite Hpost. cbn [negb].
  unfold try_except at 1 2 3. unfold CustomUser_get.
  rewrite Hfound, Hpin. cbn [negb].
  split; [ | split].
  - unfold bind, login.
    destruct (is_staff user || is_superuser user); simpl; discriminate.
  - unfold bind at 1. rewrite clock_in_run.
    match goal with
    | |- context [existsb ?p ?l] => destruct (existsb p l)
    end; simpl; discriminate.
  - unfold try_except, TimeEntry_latest. unfold bind at 1.
    destruct (latest_by_time_in (filter (is_open_for user) (entries w))).
    + rewrite clock_out_run. simpl. discriminate.
    + simpl. discriminate.
Qed.

End Views.

(* ===================================================================== *)
(** ** The two credential checks                                          *)
(* ===================================================================== *)

Section TwoChecks.

Variable cfg : Settings.

(** X12. For a user who is neither staff nor superuser the two credential
    checks agree: [authenticate_by_pin] returns the user exactly when the
    [pin] column equals the submitted secret, and returns [None] exactly
    when each of the three views answers "Incorrect PIN". *)
Theorem regular_user_checks_agree
    (request : Request) (w : World) (user : CustomUser) :
  is_post request = true ->
  find_user (req_employee_id request) (users w) = Some user ->
  is_staff user || is_superuser user = false ->
  let r := fst (authenticate_by_pin cfg (req_employee_id request)
                  (req_pin request) w) in
  (r = Ok (Some user) <-> pin user = req_pin request) /\
  (r = Ok None <->
   fst (login_view request w) =
     Ok (Render "index.html" (Some "Incorrect PIN"%string))) /\
  (r = Ok None <->
   fst (clock_in_view cfg request w) = Ok (JsonFailure "Incorrect PIN")) /\
  (r = Ok None <->
   fst (clock_out_view cfg request w) = Ok (JsonFailure "Incorrect PIN")).
Proof.
  intros Hpost Hfound Hreg r.
  assert (Hr : r = Ok (if option_string_eqb (pin user) (req_pin request)
                       then Some user else None)).
  { subst r. unfold authenticate_by_pin, try_except, CustomUser_get.
    rewrite Hfound, Hreg.
    destruct (option_string_eqb (pin user) (req_pin request)); reflexivity. }
  rewrite Hr. clear Hr r.
  destruct (option_string_eqb (pin user) (req_pin request)) eqn:Hpin.
  - apply option_string_eqb_eq in Hpin.
    destruct (pin_match_not_refused cfg request w user Hpost Hfound Hpin)
      as (H1 & H2 & H3).
    repeat split; trivial; try discriminate; intros H; contradiction.
  - assert (Hne : pin user <> req_pin request)
      by (apply option_string_eqb_neq, Hpin).
    unfold login_view, clock_in_view, clock_out_view.
    rewrite Hpost. cbn [negb]. unfold try_except, CustomUser_get.
    rewrite Hfound, Hpin. cbn [negb]. simpl.
    repeat split; trivial; try discriminate; intros H; contradiction.
Qed.

End TwoChecks.

(* ===================================================================== *)
(** ** Creating users                                                     *)
(* ===================================================================== *)

Section Creation.

Variable cfg : Settings.
Variable make_password : option string -> string.

Lemma find_user_app_new (l : list CustomUser) (u : CustomUser) :
  existsb (fun x => String.eqb (employee_id x) (employee_id u)) l = false ->
  forall v,
    find_user v (l ++ [u]) =
    if option_string_eqb v (Some (employee_id u)) then Some u
    else find_user v l.
Proof.
  intros Hnew [s | ]; [ | reflexivity]. simpl.
  induction l as [ | a l IH]; simpl in *.
  - rewrite String.eqb_sym. destruct (employee_id u =? s)%string; reflexivity.
  - apply orb_false_iff in Hnew as [Ha Hl]. specialize (IH Hl).
    destruct (employee_id a =? s)%string eqn:E; [ | exact IH].
    apply String.eqb_eq in E. subst s. rewrite Ha. reflexivity.
Qed.

Lemma create_user_inserted eid pw extra w u w' :
  create_user make_password eid pw extra w = (inr u, w') ->
  eid = Some (employee_id u) /\
  employee_id u <> EmptyString /\
  existsb (fun x => String.eqb (employee_id x) (employee_id u)) (users w) = false /\
  w' = with_users w (users w ++ [u]) /\
  password u = make_password pw /\
  pin u = xf_pin extra /\
  is_staff u = flag_or_false (xf_is_staff extra) /\
  is_superuser u = flag_or_false (xf_is_superuser extra).
Proof.
  unfold create_user. destruct eid as [[ | c s] | ]; try discriminate.
  destruct (existsb _ (users w)) eqn:E; [discriminate | ].
  intros [= <- <-]. simpl. repeat split; trivial. discriminate.
Qed.

Lemma create_user_found eid pw extra w u w' :
  create_user make_password eid pw extra w = (inr u, w') ->
  find_user eid (users w') = Some u.
Proof.
  intros H. apply create_user_inserted in H as (-> & _ & Hnew & -> & _).
  cbn [users with_users]. rewrite (find_user_app_new _ _ Hnew). simpl.
  rewrite String.eqb_refl. reflexivity.
Qed.

(** X13. Creating a user and looking it up.  When [create_user] succeeds,
    the identifier was not empty and not taken, [get] on that identifier
    now returns the created user, every other lookup answers as before,
    identifiers that were distinct stay distinct, and the ledger is
    untouched. *)
Theorem create_user_then_get eid pw extra (w w' : World) (u : CustomUser) :
  create_user make_password eid pw extra w = (inr u, w') ->
  eid <> None /\ eid <> Some EmptyString /\
  find_user eid (users w) = None /\
  CustomUser_get eid w' = (Ok u, w') /\
  (forall other, other <> eid ->
                 find_user other (users w') = find_user other (users w)) /\
  (NoDup (map employee_id (users w)) -> NoDup (map employee_id (users w'))) /\
  entries w' = entries w.
Proof.
  intros H. apply create_user_inserted in H
    as (-> & Hne & Hnew & -> & _).
  assert (Hfind : find_user (Some (employee_id u)) (users w) = None).
  { simpl. destruct (find _ (users w)) as [x | ] eqn:E; trivial.
    apply find_some in E as [Hin Hx].
    rewrite existsb_false_iff in Hnew. rewrite (Hnew x Hin) in Hx.
    discriminate. }
  split; [discriminate | ]. split; [congruence | ]. split; [exact Hfind | ].
  split; [ | split; [ | split]].
  - unfold CustomUser_get. cbn [users with_users].
    rewrite (find_user_app_new _ _ Hnew). simpl.
    rewrite String.eqb_refl. reflexivity.
  - intros other Hother. cbn [users with_users].
    rewrite (find_user_app_new _ _ Hnew).
    destruct (option_string_eqb other (Some (employee_id u))) eqn:E; trivial.
    apply option_string_eqb_eq in E. contradiction.
  - intros Hn. cbn [users with_users]. rewrite map_app. simpl.
    apply NoDup_snoc; trivial.
    intros Hin. apply in_map_iff in Hin as (x & Hx & Hin).
    rewrite existsb_false_iff in Hnew. specialize (Hnew x Hin).
    rewrite Hx, String.eqb_refl in Hnew. discriminate.
  - reflexivity.
Qed.

(** X14. [create_superuser] inserts nothing but superusers.  A user it
    returns is staff and superuser, has a non-empty identifier that was
    free, and is the last row of the user table; on every error the world
    is unchanged.  The flags are checked first: [is_staff=False] is refused
    with its own message even when the identifier is empty or taken, and an
    empty identifier is refused before the table is consulted. *)
Theorem create_superuser_outcome eid pw extra (w : World) :
  (forall u w',
     create_superuser make_password eid pw extra w = (inr u, w') ->
     is_staff u = true /\ is_superuser u = true /\
     eid = Some (employee_id u) /\ employee_id u <> EmptyString /\
     find_user eid (users w) = None /\
     users w' = users w ++ [u] /\ entries w' = entries w /\
     password u = make_password pw /\ pin u = xf_pin extra) /\
  (forall err w',
     create_superuser make_password eid pw extra w = (inl err, w') -> w' = w) /\
  (xf_is_staff extra = Some false ->
   create_superuser make_password eid pw extra w =
     (inl (ManagerValueError "Superuser must have is_staff=True."), w)) /\
  (xf_is_staff extra <> Some false -> xf_is_superuser extra = Some false ->
   create_superuser make_password eid pw extra w =
     (inl (ManagerValueError "Superuser must have is_superuser=True."), w)) /\
  (xf_is_staff extra <> Some false -> xf_is_superuser extra <> Some false ->
   eid = None \/ eid = Some EmptyString ->
   create_superuser make_password eid pw extra w =
     (inl (ManagerValueError "The Employee ID must be set"), w)).
Proof.
  unfold create_superuser.
  destruct (xf_is_staff extra) as [[ | ] | ] eqn:Hs;
    destruct (xf_is_superuser extra) as [[ | ] | ] eqn:Hu; cbn [setdefault_true
      xf_is_staff xf_is_superuser];
    (split; [ | split; [ | split; [ | split]]]);
    try discriminate; try congruence;
    try (intros; congruence);
    try (intros u w' H; apply create_user_inserted in H
           as (-> & Hne & Hnew & -> & Hpw & Hpin & Hst & Hsu);
         cbn in Hst, Hsu, Hpin; repeat split; trivial;
         simpl; destruct (find _ (users w)) as [x | ] eqn:E; trivial;
         apply find_some in E as [Hin Hx];
         rewrite existsb_false_iff in Hnew; rewrite (Hnew x Hin) in Hx;
         discriminate);
    try (intros err w' H; unfold create_user in H;
         destruct eid as [[ | c s] | ]; try congruence;
         destruct (existsb _ (users w)); congruence);
    try (intros _ _ [-> | ->]; reflexivity).
Qed.

(** X15. The credentials of a created superuser.  After
    [create_superuser] with a password that the hasher verifies against
    its own encoding, [authenticate_by_pin] accepts identifier and
    password; [login_view] answers "Incorrect PIN" to the same pair unless
    the password is also the PIN that was passed; and when no PIN was
    passed, [login_view] answers a POST that carries the identifier and no
    pin field with a redirect to the admin index and makes the session the
    superuser's. *)
Theorem created_superuser_credentials
    (eid pw : string) extra (w w' : World) (u : CustomUser) :
  create_superuser make_password (Some eid) (Some pw) extra w = (inr u, w') ->
  PASSWORD_HASHER cfg pw (make_password (Some pw)) = true ->
  fst (authenticate_by_pin cfg (Some eid) (Some pw) w') = Ok (Some u) /\
  (xf_pin extra <> Some pw ->
   login_view {| is_post := true; req_employee_id := Some eid;
                 req_pin := Some pw |} w' =
     (Ok (Render "index.html" (Some "Incorrect PIN"%string)), w')) /\
  (xf_pin extra = None ->
   let request := {| is_post := true; req_employee_id := Some eid;
                     req_pin := None |} in
   fst (login_view request w') = Ok (Redirect "admin:index") /\
   session (snd (login_view request w')) = Some (user_pk u) /\
   entries (snd (login_view request w')) = entries w').
Proof.
  intros Hcreate Hhash.
  assert (Hu : is_staff u = true /\ pin u = xf_pin extra /\
               password u = make_password (Some pw) /\
               exists extra', create_user make_password (Some eid) (Some pw)
                                extra' w = (inr u, w')).
  { unfold create_superuser in Hcreate.
    destruct (xf_is_staff extra) as [[ | ] | ];
      destruct (xf_is_superuser extra) as [[ | ] | ];
      cbn [setdefault_true xf_is_staff xf_is_superuser] in Hcreate;
      try discriminate;
      pose proof (create_user_inserted _ _ _ _ _ _ Hcreate)
        as (_ & _ & _ & _ & Hpw & Hpin & Hst & _);
      cbn in Hst, Hpin; repeat split; trivial; eexists; exact Hcreate. }
  destruct Hu as (Hstaff & Hpin & Hpw & extra' & Hcu).
  pose proof (create_user_found _ _ _ _ _ _ Hcu) as Hfound.
  split; [ | split].
  - unfold authenticate_by_pin, try_except, CustomUser_get.
    rewrite Hfound, Hstaff. cbn [orb check_password].
    rewrite Hpw, Hhash. reflexivity.
  - intros Hne. unfold login_view, try_except, CustomUser_get.
    cbn [is_post req_employee_id req_pin]. rewrite Hfound.
    rewrite <- Hpin in Hne. apply option_string_eqb_neq in Hne.
    rewrite Hne. reflexivity.
  - intros Hnone request. subst request.
    unfold login_view, try_except, CustomUser_get.
    cbn [is_post req_employee_id req_pin]. rewrite Hfound.
    rewrite Hpin, Hnone. cbn [option_string_eqb negb].
    unfold bind, login. rewrite Hstaff. repeat split.
Qed.

End Creation.

(* ===================================================================== *)
(** ** Dates, negative hours, routes                                      *)
(* ===================================================================== *)

Section Remainder.

Variable cfg : Settings.

(** X16. [TimeEntry.date] is the UTC date of [time_in].  It is the local
    date, the one that the [time_in__date] lookup of [clock_in] compares,
    exactly when adding the zone's offset to the UTC time of day of
    [time_in] stays within the day. *)
Theorem TimeEntry_date_vs_local_date (e : TimeEntry) :
  TimeEntry_date e = time_in__date cfg e <->
  0 <= Datetime.time (aware (time_in e)) + TIME_ZONE cfg (time_in e)
    < Datetime.US_PER_DAY.
Proof.
  unfold TimeEntry_date, time_in__date, Datetime.date, Datetime.time, aware.
  cbn [Datetime.wall_clock].
  set (t := time_in e). set (o := TIME_ZONE cfg t).
  assert (HD : 0 < Datetime.US_PER_DAY) by reflexivity.
  set (D := Datetime.US_PER_DAY) in *. rewrite Z.add_0_r.
  pose proof (Z.div_mod t D ltac:(lia)) as Ht.
  pose proof (Z.mod_pos_bound t D HD) as Hr.
  set (q := t / D) in *. set (r := t mod D) in *.
  replace (t + o) with (r + o + q * D) by lia.
  rewrite Z.div_add by lia.
  split.
  - intros H. assert (H0 : (r + o) / D = 0) by lia.
    apply Z.div_small_iff in H0; lia.
  - intros H. rewrite Z.div_small by lia. lia.
Qed.

Lemma int_truediv_negative a b :
  a < 0 -> PyFloat.has_sign true (PyFloat.int_truediv a b).
Proof.
  intros H. destruct a as [ | p | p ]; try lia.
  apply (SFdiv_finite_sign true p 0 false b 0).
Qed.

Lemma has_sign_nonpos x : PyFloat.has_sign true x -> float_nonpos x = true.
Proof.
  destruct x as [sx | sx | | sx mx ex]; simpl; intros H;
    try contradiction; subst; reflexivity.
Qed.

(** X17. [clock_out] has no guard on the direction of time.  On an entry
    whose [time_in] is later than the reading of the clock it returns
    normally and stores an [hours_worked] that is not positive (sign bit
    set, not nan); when the reading equals [time_in] it stores [0.0]. *)
Theorem clock_out_before_time_in (e : TimeEntry) (w : World) :
  clock w (reads w) <= time_in e ->
  exists e' h,
    fst (clock_out cfg e w) = Ok e' /\
    time_out e' = Some (clock w (reads w)) /\
    hours_worked e' = Some h /\
    float_nonpos h = true /\
    (clock w (reads w) < time_in e -> PyFloat.has_sign true h) /\
    (clock w (reads w) = time_in e -> h = PyFloat.fzero).
Proof.
  intros Hle. rewrite clock_out_run. cbn [fst].
  exists (closed_at cfg (clock w (reads w)) e),
         (spec_hours (time_in e) (clock w (reads w))).
  assert (Hneg : clock w (reads w) < time_in e ->
                 PyFloat.has_sign true
                   (spec_hours (time_in e) (clock w (reads w)))).
  { intros Hlt. unfold spec_hours. apply round2_sign.
    destruct of_int_3600 as (m & x & ->).
    apply truediv_sign, int_truediv_negative. lia. }
  assert (Hzero : clock w (reads w) = time_in e ->
                  spec_hours (time_in e) (clock w (reads w)) = PyFloat.fzero).
  { intros ->. unfold spec_hours. rewrite Z.sub_diag. vm_compute. reflexivity. }
  repeat split; trivial.
  destruct (Z.eq_dec (clock w (reads w)) (time_in e)) as [Heq | Hne].
  - rewrite (Hzero Heq). reflexivity.
  - apply has_sign_nonpos, Hneg. lia.
Qed.

(** X18. The URL patterns route to [login_view] and to nothing else.  A
    path is served exactly when it is the empty path or "login/"; the
    answer is then that of [login_view], which leaves the ledger as it
    is.  Every name that can be reversed leads back to [login_view];
    the name "user_page", to which [login_view] redirects a regular user,
    is not among them. *)
Theorem urlpatterns_serve_login_view
    (path : string) (request : Request) (w : World) :
  (forall r,
     serve cfg path request w = Some r ->
     (path = EmptyString \/ path = "login/"%string) /\
     r = login_view request w /\
     entries (snd r) = entries w) /\
  (serve cfg path request w = None <->
   path <> EmptyString /\ path <> "login/"%string) /\
  (forall name route, reverse name = Some route ->
                      resolve route = Some LoginView) /\
  reverse "user_page" = None.
Proof.
  unfold serve, resolve, urlpatterns. cbn [find fst snd].
  assert (Hkeep : entries (snd (login_view request w)) = entries w)
    by apply login_view_entries.
  split; [ | split; [ | split]].
  - intros r.
    destruct (String.eqb EmptyString path) eqn:E1.
    + apply String.eqb_eq in E1. intros [= <-]. cbn [view_function].
      repeat split; auto.
    + destruct (String.eqb "login/" path) eqn:E2; [ | discriminate].
      apply String.eqb_eq in E2. intros [= <-]. cbn [view_function].
      repeat split; auto.
  - destruct (String.eqb EmptyString path) eqn:E1.
    + apply String.eqb_eq in E1. split; [discriminate | ]. intros [H _].
      congruence.
    + apply String.eqb_neq in E1.
      destruct (String.eqb "login/" path) eqn:E2.
      * apply String.eqb_eq in E2. split; [discriminate | ]. intros [_ H].
        congruence.
      * apply String.eqb_neq in E2. split; [ | reflexivity].
        intros _. split; congruence.
  - intros name route. unfold reverse, urlpatterns. cbn [find fst snd].
    destruct (String.eqb "index" name).
    + intros [= <-]. reflexivity.
    + destruct (String.eqb "login" name); [ | discriminate].
      intros [= <-]. reflexivity.
  - reflexivity.
Qed.

End Remainder.

(* ===================================================================== *)
(** ** The further properties on the sample data                          *)
(* ===================================================================== *)

(** X2 and X3 after two clock-ins of Alice in a row. *)
Lemma twice_clocked_in_reachable :
  reachable Sample.utc
    (snd (clock_in Sample.utc Sample.alice
            (snd (clock_in Sample.utc Sample.alice
                    (Sample.fresh (Sample.at_ 20000 8 6)))))).
Proof. apply reach_clock_in, reach_clock_in, reach_empty. reflexivity. Defined.

Lemma reachable_at_most_one_open_witness :
  let w := snd (clock_in Sample.utc Sample.alice
                  (snd (clock_in Sample.utc Sample.alice
                          (Sample.fresh (Sample.at_ 20000 8 6))))) in
  List.length (entries w) = 2%nat /\
  (List.length (filter (is_open_for Sample.alice) (entries w)) <= 1)%nat.
Proof.
  split; [reflexivity | ].
  exact (reachable_at_most_one_open Sample.utc _ Sample.alice
           twice_clocked_in_reachable).
Defined.

Lemma reachable_keys_distinct_witness :
  let w := snd (clock_in Sample.utc Sample.alice
                  (snd (clock_in Sample.utc Sample.alice
                          (Sample.fresh (Sample.at_ 20000 8 6))))) in
  NoDup (map pk (entries w)).
Proof.
  exact (reachable_keys_distinct Sample.utc _ twice_clocked_in_reachable).
Defined.

Lemma one_row_keys_distinct (e : TimeEntry) (now : Z) :
  NoDup (map pk (entries (Sample.holding e now))).
Proof. simpl. constructor; [intros [] | constructor]. Defined.

(** X4 on Alice's open entry, closed at 17:00. *)
Lemma clock_out_writes_one_row_witness :
  let w := Sample.holding Sample.open_entry (Sample.at_ 20000 17 0) in
  let w' := snd (clock_out Sample.utc Sample.open_entry w) in
  users w' = users w /\ session w' = session w /\
  reads w' = S (reads w) /\
  List.length (entries w') = List.length (entries w) /\
  (forall i r,
     nth_error (entries w) i = Some r ->
     exists r',
       nth_error (entries w') i = Some r' /\
       pk r' = pk r /\ user_id r' = user_id r /\ time_in r' = time_in r /\
       (r <> Sample.open_entry -> r' = r)).
Proof.
  exact (clock_out_writes_one_row Sample.utc Sample.open_entry
           (Sample.holding Sample.open_entry (Sample.at_ 20000 17 0))
           (one_row_keys_distinct _ _) (or_introl eq_refl)).
Defined.

(** X5 on the boss clocking in beside Alice's open entry. *)
Lemma clock_in_keeps_other_entries_witness :
  let w := Sample.holding Sample.open_entry (Sample.at_ 20000 17 0) in
  let w' := snd (clock_in Sample.utc Sample.boss w) in
  nth_error (entries w) 0 = Some Sample.open_entry /\
  is_open_for Sample.boss Sample.open_entry = false /\
  users w' = users w /\ session w' = session w /\
  List.length (entries w') = S (List.length (entries w)) /\
  (forall i r,
     nth_error (entries w) i = Some r ->
     is_open_for Sample.boss r = false ->
     nth_error (entries w') i = Some r).
Proof.
  split; [reflexivity | ]. split; [reflexivity | ].
  exact (clock_in_keeps_other_entries Sample.utc Sample.boss
           (Sample.holding Sample.open_entry (Sample.at_ 20000 17 0))
           (one_row_keys_distinct _ _)).
Defined.

(** X6 on Alice clocking out of her open entry at 17:00. *)
Lemma clock_out_view_closes_latest_witness :
  let w := Sample.holding Sample.open_entry (Sample.at_ 20000 17 0) in
  exists latest,
    In latest (entries w) /\
    is_open_for Sample.alice latest = true /\
    (forall e', In e' (entries w) -> is_open_for Sample.alice e' = true ->
                time_in e' <= time_in latest) /\
    clock_out_view Sample.utc (Sample.post "000001" "1234") w =
      (Ok (JsonSuccess (employee_id Sample.alice) (first_name Sample.alice)
             (surname Sample.alice) (company Sample.alice)
             (local Sample.utc (time_in latest))
             (Some (local Sample.utc (clock w (reads w))))),
       snd (clock_out Sample.utc latest w)).
Proof.
  exact (clock_out_view_closes_latest Sample.utc (Sample.post "000001" "1234")
           (Sample.holding Sample.open_entry (Sample.at_ 20000 17 0))
           Sample.alice Sample.open_entry
           eq_refl eq_refl eq_refl (or_introl eq_refl) eq_refl).
Defined.

(** X7 on Alice clocking in and out of an empty ledger. *)
Lemma clock_in_then_clock_out_view_witness :
  let w := Sample.fresh (Sample.at_ 20000 8 6) in
  let w1 := snd (clock_in Sample.utc Sample.alice w) in
  let request := Sample.post "000001" "1234" in
  fst (clock_out_view Sample.utc request w1) =
    Ok (JsonSuccess (employee_id Sample.alice) (first_name Sample.alice)
          (surname Sample.alice) (company Sample.alice)
          (local Sample.utc (Sample.at_ 20000 8 6))
          (Some (local Sample.utc (Sample.at_ 20000 8 6)))) /\
  (exists closed,
     In closed (entries (snd (clock_out_view Sample.utc request w1))) /\
     user_id closed = user_pk Sample.alice /\
     time_in closed = Sample.at_ 20000 8 6 /\
     time_out closed = Some (Sample.at_ 20000 8 6) /\
     hours_worked closed =
       Some (spec_hours (Sample.at_ 20000 8 6) (Sample.at_ 20000 8 6))) /\
  (forall r, In r (entries (snd (clock_out_view Sample.utc request w1))) ->
             is_open_for Sample.alice r = false).
Proof.
  exact (clock_in_then_clock_out_view Sample.utc (Sample.post "000001" "1234")
           (Sample.fresh (Sample.at_ 20000 8 6)) Sample.alice
           eq_refl eq_refl eq_refl).
Defined.


(** X12 on Alice and her PIN. *)
Lemma regular_user_checks_agree_witness :
  let w := Sample.fresh (Sample.at_ 20000 8 6) in
  let request := Sample.post "000001" "1234" in
  let r := fst (authenticate_by_pin Sample.utc (req_employee_id request)
                  (req_pin request) w) in
  (r = Ok (Some Sample.alice) <-> pin Sample.alice = req_pin request) /\
  (r = Ok None <->
   fst (login_view request w) =
     Ok (Render "index.html" (Some "Incorrect PIN"%string))) /\
  (r = Ok None <->
   fst (clock_in_view Sample.utc request w) = Ok (JsonFailure "Incorrect PIN")) /\
  (r = Ok None <->
   fst (clock_out_view Sample.utc request w) = Ok (JsonFailure "Incorrect PIN")).
Proof.
  exact (regular_user_checks_agree Sample.utc (Sample.post "000001" "1234")
           (Sample.fresh (Sample.at_ 20000 8 6)) Sample.alice
           eq_refl eq_refl eq_refl).
Defined.

(** X13 on a third user. *)
Lemma create_user_then_get_witness :
  let w := Sample.fresh (Sample.at_ 20000 8 6) in
  let w' := with_users w (users w ++ [Fixture.carol]) in
  let eid := Some "000003"%string in
  eid <> None /\ eid <> Some EmptyString /\
  find_user eid (users w) = None /\
  CustomUser_get eid w' = (Ok Fixture.carol, w') /\
  (forall other, other <> eid ->
                 find_user other (users w') = find_user other (users w)) /\
  (NoDup (map employee_id (users w)) -> NoDup (map employee_id (users w'))) /\
  entries w' = entries w.
Proof.
  exact (create_user_then_get Fixture.encode (Some "000003"%string)
           (Some "pw"%string) Fixture.no_extra
           (Sample.fresh (Sample.at_ 20000 8 6)) _ Fixture.carol eq_refl).
Defined.

(** X15 on a superuser created without a PIN. *)
Lemma created_superuser_credentials_witness :
  let w := Sample.fresh (Sample.at_ 20000 8 6) in
  let w' := with_users w (users w ++ [Fixture.root]) in
  fst (authenticate_by_pin Sample.utc (Some "000003"%string)
         (Some "pw"%string) w') = Ok (Some Fixture.root) /\
  (xf_pin Fixture.no_extra <> Some "pw"%string ->
   login_view (Sample.post "000003" "pw") w' =
     (Ok (Render "index.html" (Some "Incorrect PIN"%string)), w')) /\
  (xf_pin Fixture.no_extra = None ->
   let request := Fixture.post_without_pin "000003" in
   fst (login_view request w') = Ok (Redirect "admin:index") /\
   session (snd (login_view request w')) = Some (user_pk Fixture.root) /\
   entries (snd (login_view request w')) = entries w').
Proof.
  exact (created_superuser_credentials Sample.utc Fixture.encode
           "000003" "pw" Fixture.no_extra
           (Sample.fresh (Sample.at_ 20000 8 6)) _ Fixture.root
           eq_refl eq_refl).
Defined.

(** X17 on an entry opened a day after the reading of the clock. *)
Lemma clock_out_before_time_in_witness :
  let w := Fixture.clock_set_back in
  clock w (reads w) < time_in Sample.open_entry /\
  exists e' h,
    fst (clock_out Sample.utc Sample.open_entry w) = Ok e' /\
    time_out e' = Some (clock w (reads w)) /\
    hours_worked e' = Some h /\
    float_nonpos h = true /\
    (clock w (reads w) < time_in Sample.open_entry -> PyFloat.has_sign true h) /\
    (clock w (reads w) = time_in Sample.open_entry -> h = PyFloat.fzero).
Proof.
  split; [reflexivity | ].
  refine (clock_out_before_time_in Sample.utc Sample.open_entry
            Fixture.clock_set_back _).
  intros H. discriminate H.
Defined.
